(** * fpga_builder.utils: a shallow embedding and its properties

    The Python module [fpga_builder/utils.py] is glue code around the
    interpreter's process, terminal and string primitives.  The embedding
    below keeps the control flow of every function that is reasoned about
    ([run_cmd], [_run_blocking], [_run_nonblocking], [repo_clean],
    [query_yes_no], [check_vitis]) and replaces the outside world by explicit
    inputs: what a child process writes and how it exits, what the terminal
    delivers, what the status query prints.  Everything the functions do to
    the outside world is recorded in a trace of events.

    Conventions.
    - A Python [str] is a list of Unicode code points ([N]); a [bytes]
      object is a list of [byte].
    - A raised exception is the [Raise] case of [result].
    - The built-ins [str.strip], [str.split], [str.replace], [int],
      [bytes.decode] and [shlex.split] are modelled after CPython 3.11.
      [int] knows the decimal digits of Unicode 14.0 and the interpreter's
      default limit of 4300 digits for an integer literal.  [str.lower] is
      modelled on the ASCII letters: cased letters outside ASCII are left
      as they are, and none of them lowers into a token of the prompt.
    - [subprocess.Popen] is read as on POSIX systems. *)

From Stdlib Require Import List ZArith NArith Bool Lia.
From Stdlib Require Import Strings.String Strings.Ascii Strings.Byte.
From Equations Require Import Equations.
Import ListNotations.

Local Open Scope Z_scope.

(* ===================================================================== *)
(** ** Python values, exceptions and built-ins                            *)
(* ===================================================================== *)

Module Py.

(** A [str]: a sequence of code points. *)
Definition str := list N.

(** A [bytes] object. *)
Definition bytes := list byte.

(** An ASCII literal as a [str]. *)
Definition py (s : string) : str :=
  List.map N_of_ascii (list_ascii_of_string s).

Fixpoint str_eqb (a b : str) : bool :=
  match a, b with
  | [], [] => true
  | x :: a', y :: b' => N.eqb x y && str_eqb a' b'
  | _, _ => false
  end.

(** What [CalledProcessError.cmd] holds: the caller hands over either the
    command line as text or the argument list. *)
Inductive cmd_payload :=
| CmdText (s : str)
| CmdArgs (l : list str).

Inductive exn :=
| ValueError
| IndexError
| KeyError
| TypeError
| EOFError
| UnicodeDecodeError
| OSError
| FileNotFoundError
| CalledProcessError (returncode : Z) (cmd : cmd_payload).

(** [except (FileNotFoundError, OSError)]: [FileNotFoundError] is a
    subclass of [OSError]. *)
Definition is_OSError (e : exn) : bool :=
  match e with
  | OSError | FileNotFoundError => true
  | _ => false
  end.

Inductive result (A : Type) :=
| Ok (a : A)
| Raise (e : exn).
Arguments Ok {A} a.
Arguments Raise {A} e.

(** [Py_UNICODE_ISSPACE]: the characters [str.strip()] removes. *)
Definition isspace (c : N) : bool :=
  (((9 <=? c) && (c <=? 13)) || ((28 <=? c) && (c <=? 32))
   || (c =? 133) || (c =? 160) || (c =? 5760)
   || ((8192 <=? c) && (c <=? 8202))
   || (c =? 8232) || (c =? 8233) || (c =? 8239) || (c =? 8287)
   || (c =? 12288))%N.

Fixpoint lstrip (s : str) : str :=
  match s with
  | [] => []
  | c :: s' => if isspace c then lstrip s' else s
  end.

Definition rstrip (s : str) : str := rev (lstrip (rev s)).

(** [s.strip()]: whitespace is removed at both ends. *)
Definition strip (s : str) : str := rstrip (lstrip s).

(** [s.lower()] on the ASCII letters. *)
Definition lower_char (c : N) : N :=
  (if (65 <=? c) && (c <=? 90) then c + 32 else c)%N.

Definition lower (s : str) : str := List.map lower_char s.

(** [s.split(sep)] for a one-character separator: [cur] holds the
    current component, reversed. *)
Fixpoint split_aux (sep : N) (cur : str) (s : str) : list str :=
  match s with
  | [] => [rev cur]
  | c :: s' =>
      if N.eqb c sep then rev cur :: split_aux sep [] s'
      else split_aux sep (c :: cur) s'
  end.

Definition split (sep : N) (s : str) : list str := split_aux sep [] s.

(** [s.replace(old, new)] for a one-character [old]. *)
Definition replace (old : N) (new : str) (s : str) : str :=
  flat_map (fun c => if N.eqb c old then new else [c]) s.

(** [l[i]]: an index past the end raises [IndexError]. *)
Definition index {A} (l : list A) (i : nat) : result A :=
  match nth_error l i with
  | Some a => Ok a
  | None => Raise IndexError
  end.

(** The whitespace [int()] ignores around a literal: the C locale's
    blanks among the ASCII characters, and the Unicode whitespace beyond
    them.  Unlike [str.strip()], it does not take the separators U+001C
    to U+001F for whitespace. *)
Definition int_isspace (c : N) : bool :=
  isspace c && negb ((28 <=? c) && (c <=? 31))%N.

Fixpoint int_lstrip (s : str) : str :=
  match s with
  | [] => []
  | c :: s' => if int_isspace c then int_lstrip s' else s
  end.

Definition int_strip (s : str) : str := rev (int_lstrip (rev (int_lstrip s))).

(** The digit zero of every run of ten decimal digits (Unicode 14.0, general
    category Nd): ASCII, Arabic-Indic, ..., fullwidth, ..., the
    mathematical digits, ..., segmented digits. *)
Definition decimal_zeros : list N :=
  [48; 1632; 1776; 1984; 2406; 2534; 2662; 2790; 2918; 3046; 3174; 3302;
   3430; 3558; 3664; 3792; 3872; 4160; 4240; 6112; 6160; 6470; 6608; 6784;
   6800; 6992; 7088; 7232; 7248; 42528; 43216; 43264; 43472; 43504; 43600;
   44016; 65296; 66720; 68912; 69734; 69872; 69942; 70096; 70384; 70736;
   70864; 71248; 71360; 71472; 71904; 72016; 72784; 73040; 73120; 92768;
   92864; 93008; 120782; 120792; 120802; 120812; 120822; 123200; 123632;
   125264; 130032]%N.

(** [Py_UNICODE_TODECIMAL]: the value of a decimal digit. *)
Fixpoint decimal_in (zeros : list N) (c : N) : option N :=
  match zeros with
  | [] => None
  | z :: zeros' =>
      if ((z <=? c) && (c <=? z + 9))%N then Some (c - z)%N
      else decimal_in zeros' c
  end.

Definition decimal (c : N) : option N := decimal_in decimal_zeros c.

(** [sys.get_int_max_str_digits()], at its default. *)
Definition int_max_str_digits : N := 4300.

(** The digits of a base-10 literal; a single underscore may separate two
    digits.  [prev] tells whether the previous character was a digit,
    [count] how many digits were read; a literal of more than
    [int_max_str_digits] digits is refused. *)
Fixpoint int_digits (acc : Z) (count : N) (prev : bool) (s : str)
  : option Z :=
  match s with
  | [] =>
      if prev && (count <=? int_max_str_digits)%N then Some acc else None
  | c :: s' =>
      match decimal c with
      | Some d => int_digits (10 * acc + Z.of_N d) (count + 1)%N true s'
      | None =>
          if N.eqb c 95 then
            if prev then int_digits acc count false s' else None
          else None
      end
  end.

(** [int(s)]: surrounding whitespace, an optional sign, digits.  [None]
    stands for [ValueError]. *)
Definition int_opt (s : str) : option Z :=
  match int_strip s with
  | 43%N :: r => int_digits 0 0 false r
  | 45%N :: r => option_map Z.opp (int_digits 0 0 false r)
  | r => int_digits 0 0 false r
  end.

Definition int (s : str) : result Z :=
  match int_opt s with
  | Some z => Ok z
  | None => Raise ValueError
  end.

(** [b.decode("utf-8")] with the default strict error handling: only
    well-formed UTF-8 is accepted (no overlong forms, no surrogates,
    nothing above U+10FFFF).  [None] stands for [UnicodeDecodeError]. *)
Definition cont (b : byte) : option N :=
  let n := Byte.to_N b in
  (if (128 <=? n) && (n <=? 191) then Some (n - 128) else None)%N.

Fixpoint decode_utf8 (bs : bytes) : option str :=
  match bs with
  | [] => Some []
  | b0 :: r0 =>
      let n0 := Byte.to_N b0 in
      if (n0 <? 128)%N then option_map (cons n0) (decode_utf8 r0)
      else if ((194 <=? n0) && (n0 <=? 223))%N then
        match r0 with
        | b1 :: r1 =>
            match cont b1 with
            | Some c1 =>
                option_map (cons ((n0 - 192) * 64 + c1)%N) (decode_utf8 r1)
            | None => None
            end
        | _ => None
        end
      else if ((224 <=? n0) && (n0 <=? 239))%N then
        match r0 with
        | b1 :: b2 :: r2 =>
            match cont b1, cont b2 with
            | Some c1, Some c2 =>
                let cp := ((n0 - 224) * 4096 + c1 * 64 + c2)%N in
                if ((2048 <=? cp) && negb ((55296 <=? cp) && (cp <=? 57343)))%N
                then option_map (cons cp) (decode_utf8 r2)
                else None
            | _, _ => None
            end
        | _ => None
        end
      else if ((240 <=? n0) && (n0 <=? 244))%N then
        match r0 with
        | b1 :: b2 :: b3 :: r3 =>
            match cont b1, cont b2, cont b3 with
            | Some c1, Some c2, Some c3 =>
                let cp :=
                  ((n0 - 240) * 262144 + c1 * 4096 + c2 * 64 + c3)%N in
                if ((65536 <=? cp) && (cp <=? 1114111))%N
                then option_map (cons cp) (decode_utf8 r3)
                else None
            | _, _, _ => None
            end
        | _ => None
        end
      else None
  end.

Definition decode (bs : bytes) : result str :=
  match decode_utf8 bs with
  | Some s => Ok s
  | None => Raise UnicodeDecodeError
  end.

(** A [bytes] literal. *)
Definition b (s : string) : bytes := list_byte_of_string s.

End Py.

Import Py.

(* ===================================================================== *)
(** ** shlex.split (POSIX mode, no comments, whitespace_split)            *)
(* ===================================================================== *)

Module Shlex.

(** The lexer's [state] attribute: [' '], a quote character, the escape
    character, or ['a']. *)
Inductive lstate :=
| InSpace
| InQuote (q : N)
| InEscape (c : N)
| InWord.

Definition whitespace (c : N) : bool :=
  ((c =? 32) || (c =? 9) || (c =? 13) || (c =? 10))%N.
Definition quotes (c : N) : bool := ((c =? 39) || (c =? 34))%N.
Definition escape (c : N) : bool := (c =? 92)%N.
Definition escapedquotes (c : N) : bool := (c =? 34)%N.

Definition state_in_quotes (st : lstate) : bool :=
  match st with InQuote _ => true | _ => false end.

(** [nextchar != self.state] and [nextchar != escapedstate], for a
    state that is a character. *)
Definition differs (c : N) (st : lstate) : bool :=
  match st with
  | InQuote q => negb (N.eqb c q)
  | InEscape e => negb (N.eqb c e)
  | _ => true
  end.

(** The end of [read_token]: an empty unquoted token is the end-of-input
    marker and is not part of the result. *)
Definition emit (quoted : bool) (token : str) (k : list str) : list str :=
  match token with
  | [] => if quoted then [] :: k else k
  | _ => rev token :: k
  end.

(** [list(lex)]: the calls of [read_token] in a row.  [st] is the
    lexer's state, which outlives a token; [escapedstate], [quoted] and
    [token] (kept reversed) are reset whenever a token is returned.  With
    [whitespace_split] set and no [punctuation_chars], a character that is
    neither whitespace, escape nor quote is added to the token whether or
    not it is a word character. *)
Fixpoint lex (st escapedstate : lstate) (quoted : bool) (token : str)
         (input : str) : result (list str) :=
  match input with
  | [] =>
      match st with
      | InSpace | InWord => Ok (emit quoted token [])
      | InQuote _ => Raise ValueError
      | InEscape _ => Raise ValueError
      end
  | c :: rest =>
      match st with
      | InSpace =>
          if whitespace c then
            match token, quoted with
            | [], false => lex InSpace escapedstate quoted token rest
            | _, _ =>
                match lex InSpace InSpace false [] rest with
                | Ok k => Ok (emit quoted token k)
                | Raise e => Raise e
                end
            end
          else if escape c then lex (InEscape c) InWord quoted token rest
          else if quotes c then lex (InQuote c) escapedstate quoted token rest
          else lex InWord escapedstate quoted [c] rest
      | InQuote q =>
          if N.eqb c q then lex InWord escapedstate true token rest
          else if escape c && escapedquotes q
               then lex (InEscape c) st true token rest
               else lex st escapedstate true (c :: token) rest
      | InEscape e =>
          let token' :=
            if state_in_quotes escapedstate && differs c st
               && differs c escapedstate
            then c :: e :: token else c :: token in
          lex escapedstate escapedstate quoted token' rest
      | InWord =>
          if whitespace c then
            match token, quoted with
            | [], false => lex InSpace escapedstate quoted token rest
            | _, _ =>
                match lex InSpace InSpace false [] rest with
                | Ok k => Ok (emit quoted token k)
                | Raise e => Raise e
                end
            end
          else if quotes c then lex (InQuote c) escapedstate quoted token rest
          else if escape c then lex (InEscape c) InWord quoted token rest
          else lex InWord escapedstate quoted (c :: token) rest
      end
  end.

(** [shlex.split(s)]. *)
Definition split (s : str) : result (list str) := lex InSpace InSpace false [] s.

End Shlex.

(* ===================================================================== *)
(** ** Child processes, the event trace and the effect monad              *)
(* ===================================================================== *)

Module Subprocess.

(** The arguments of a [subprocess.Popen] call that matter here.
    [pipe] stands for [stdout=PIPE, stderr=STDOUT]; without it the child
    writes to the streams it inherits from the parent. *)
Record popen_req := {
  args : list str;
  cwd : str;
  shell : bool;
  pipe : bool
}.

(** A child that was started and exits: the bytes it writes to its
    (merged) output, how many times [poll()] still answers [None] once
    the output is exhausted, and its exit code. *)
Record process := {
  output : bytes;
  lingering : nat;
  returncode : Z
}.

(** Starting a child either raises or yields a process. *)
Inductive outcome :=
| Fails (e : exn)
| Starts (p : process).

(** The operating system, as far as [Popen] is concerned. *)
Definition os := popen_req -> outcome.

(** [f.readline()] on a binary stream: the bytes up to and including
    the first newline (or all of them), and what remains. *)
Fixpoint readline (s : bytes) : bytes * bytes :=
  match s with
  | [] => ([], [])
  | c :: s' =>
      if Byte.eqb c x0a then ([c], s')
      else let (l, r) := readline s' in (c :: l, r)
  end.

End Subprocess.

Import Subprocess.

(** What a run does to the outside world. *)
Inductive event :=
| Print (s : str)                         (* print(s) *)
| Err (label : str) (what : cmd_payload)  (* err(f"{label}{what}") *)
| Popen (r : popen_req)                   (* subprocess.Popen(...) is called *)
| Write (s : str)                         (* print(s) without the newline *)
| Streamed (out : bytes)                  (* child output on inherited streams *)
| LineHandler (line : str).               (* line_handler(line) *)

(** Computations: the events so far and a value or an exception. *)
Definition io (A : Type) : Type := list event * result A.

Definition ret {A} (a : A) : io A := ([], Ok a).
Definition raise {A} (e : exn) : io A := ([], Raise e).
Definition tell (e : event) : io unit := ([e], Ok tt).
Definition lift {A} (r : result A) : io A := ([], r).

Definition bind {A B} (m : io A) (k : A -> io B) : io B :=
  match m with
  | (t, Ok a) => let (t', r) := k a in (t ++ t', r)
  | (t, Raise e) => (t, Raise e)
  end.

Declare Scope io_scope.
Delimit Scope io_scope with io.
Notation "x <- m ;; k" := (bind m (fun x => k))
  (at level 61, m at next level, right associativity) : io_scope.
Notation "m ;; k" := (bind m (fun _ => k))
  (at level 61, right associativity) : io_scope.
Local Open Scope io_scope.

Definition trace {A} (m : io A) : list event := fst m.
Definition outcome_of {A} (m : io A) : result A := snd m.

(** A callback: [None] when it returns, [Some e] when it raises [e]. *)
Definition handler := str -> option exn.

Definition call_handler (h : handler) (line : str) : io unit :=
  tell (LineHandler line) ;;
  match h line with
  | None => ret tt
  | Some e => raise e
  end.

(* ===================================================================== *)
(** ** Command runner                                                     *)
(* ===================================================================== *)

(** Dynamically typed positional arguments of a call. *)
Inductive pyobj :=
| PList (l : list str)
| PPath (p : str)
| PStr (s : str).

Definition bar : str :=
  py "=============================================================".

Definition _print_cmd_header (cmd cwd : str) (silent blocking : bool) : io unit :=
  if negb silent then
    tell (Print []) ;;
    tell (Print bar) ;;
    tell (Print (py "Running command"
                 ++ (if negb blocking then py " (non-blocking)" else [])
                 ++ py ":")) ;;
    tell (Print cmd) ;;
    tell (Print (py "From directory " ++ cwd))
  else ret tt.

Definition _print_cmd_footer (silent : bool) : io unit :=
  if negb silent then tell (Print bar) else ret tt.

(** Case analysis that remembers what was analysed. *)
Definition inspect {A} (a : A) : {x : A | a = x} := exist _ a eq_refl.

(** The [while True] loop of [_run_blocking] (utils.py, lines 137-143)
    over the child's pipe.  [out] is what is still unread, [lingering] the
    number of [poll()] calls that still answer [None].  An empty [readline]
    result ends the loop once [poll()] reports the exit; a non-empty one is
    decoded, stripped and handed to the callback. *)
Equations? read_loop (line_handler : handler) (out : bytes) (lingering : nat)
  : io unit by wf (List.length out + lingering)%nat lt :=
  read_loop line_handler out lingering with inspect (readline out) := {
    | exist _ ([], rest) Hrd with lingering := {
        | O => ret tt
        | S k => read_loop line_handler rest k };
    | exist _ (c :: l, rest) Hrd =>
        line <- lift (decode (c :: l)) ;;
        call_handler line_handler (strip line) ;;
        read_loop line_handler rest lingering }.
Proof.
  - assert (List.length rest <= List.length out)%nat; [|lia].
    clear read_loop. destruct out as [|x out]; cbn in Hrd.
    + injection Hrd as <-. cbn. lia.
    + destruct (Byte.eqb x x0a); [discriminate|].
      destruct (readline out); discriminate.
  - assert (List.length rest < List.length out)%nat; [|lia].
    clear read_loop. revert c l rest Hrd.
    induction out as [|x out IH]; intros c l rest Hrd; cbn in Hrd.
    + discriminate.
    + destruct (Byte.eqb x x0a).
      * injection Hrd as _ _ <-. cbn. lia.
      * destruct (readline out) as [l' r'] eqn:E.
        injection Hrd as _ <- <-.
        destruct l' as [|c' l''].
        -- destruct out as [|y out]; cbn in E.
           ++ injection E as <-. cbn. lia.
           ++ destruct (Byte.eqb y x0a); [discriminate|].
              destruct (readline out); discriminate.
        -- specialize (IH c' l'' r' eq_refl). cbn. lia.
Qed.

(** [subprocess.run(args, cwd=cwd, check=True, text=True)]: the child runs
    to completion on the inherited streams; a non-zero exit code raises
    [CalledProcessError(retcode, process.args)]. *)
Definition subprocess_run_check (sys : os) (split_cmd : list str) (cwd : str)
  : io Z :=
  let req := {| args := split_cmd; cwd := cwd; shell := false; pipe := false |} in
  tell (Popen req) ;;
  match sys req with
  | Fails e => raise e
  | Starts p =>
      tell (Streamed (output p)) ;;
      if negb (returncode p =? 0)
      then raise (CalledProcessError (returncode p) (CmdArgs split_cmd))
      else ret (returncode p)
  end.

(** [_run_blocking] (utils.py, lines 122-156). *)
Definition _run_blocking (sys : os) (split_cmd : list str) (cwd : str)
           (line_handler : option handler) (original_cmd : str) : io Z :=
  match line_handler with
  | Some h =>
      let req := {| args := split_cmd; cwd := cwd; shell := false; pipe := true |} in
      tell (Popen req) ;;
      match sys req with
      | Fails e => raise e
      | Starts process =>
          read_loop h (output process) (lingering process) ;;
          let rc := returncode process in
          if negb (rc =? 0)
          then raise (CalledProcessError rc (CmdText original_cmd))
          else ret rc
      end
  | None =>
      rc <- subprocess_run_check sys split_cmd cwd ;;
      ret rc
  end.

(** What [Popen(args, shell=True, ...)] makes of its first argument: a
    list is taken as it is, a string is the list of that one string, and a
    path is refused with [TypeError] when a shell is asked for. *)
Definition as_args (o : pyobj) : option (list str) :=
  match o with
  | PList l => Some l
  | PStr s => Some [s]
  | PPath _ => None
  end.

(** What [Popen(..., cwd=d)] makes of [d]: a string or a path names the
    directory, anything else is refused with [TypeError]. *)
Definition as_cwd (o : pyobj) : option str :=
  match o with
  | PPath d => Some d
  | PStr d => Some d
  | PList _ => None
  end.

(** [def _run_nonblocking(split_cmd, cwd)] (utils.py, lines 159-169): two
    positional parameters; a call with any other number of arguments raises
    [TypeError] before the body runs.  The body checks no types: the two
    values go to [Popen] as they are. *)
Definition _run_nonblocking (sys : os) (positional : list pyobj) : io Z :=
  match positional with
  | [split_cmd; cwd] =>
      match as_args split_cmd, as_cwd cwd with
      | Some l, Some d =>
          let req := {| args := l; cwd := d; shell := true; pipe := false |} in
          tell (Popen req) ;;
          match sys req with
          | Fails e => raise e
          | Starts _ => ret 0
          end
      | _, _ => raise TypeError
      end
  | _ => raise TypeError
  end.

(** [try: ... except (FileNotFoundError, OSError) as e: ...; raise]. *)
Definition try_except_OSError {A} (body : io A) (on_error : io unit) : io A :=
  match body with
  | (t, Raise e) =>
      if is_OSError e then
        match on_error with
        | (t', Ok _) => (t ++ t', Raise e)
        | (t', Raise e') => (t ++ t', Raise e')
        end
      else (t, Raise e)
  | ok => ok
  end.

(** [if not cwd: cwd = Path.cwd()]: [None] and the empty string are
    falsy.  [getcwd] is what [Path.cwd()] returns. *)
Definition resolve_cwd (getcwd : str) (cwd : option str) : str :=
  match cwd with
  | None | Some [] => getcwd
  | Some d => d
  end.

(** [cmd.replace("\\", "\\\\")]: every backslash is doubled. *)
Definition escape_backslashes (cmd : str) : str := replace 92 [92; 92]%N cmd.

(** [run_cmd(cmd, cwd, silent, line_handler, blocking)] (utils.py, lines
    62-103).  The command is split before anything is printed; the
    non-blocking branch calls [_run_nonblocking(split_cmd, cwd, cmd)]. *)
Definition run_cmd (sys : os) (getcwd : str) (cmd : str) (cwd : option str)
           (silent : bool) (line_handler : option handler) (blocking : bool)
  : io Z :=
  let cwd := resolve_cwd getcwd cwd in
  let cmd_escaped := escape_backslashes cmd in
  split_cmd <- lift (Shlex.split cmd_escaped) ;;
  _print_cmd_header cmd cwd silent blocking ;;
  rc <- try_except_OSError
          (if blocking
           then _run_blocking sys split_cmd cwd line_handler cmd
           else _run_nonblocking sys [PList split_cmd; PPath cwd; PStr cmd])
          (tell (Err (py "Command was ") (CmdText cmd)) ;;
           tell (Err (py "Split command was ") (CmdArgs split_cmd))) ;;
  _print_cmd_footer silent ;;
  ret rc.

(* ===================================================================== *)
(** ** Repository cleanliness check                                       *)
(* ===================================================================== *)

Definition status_cmd : str := py "git status --porcelain".

Definition stars : str := py "********************************************".

(** [repo_clean()] (utils.py, lines 236-261).  [shell_stdout cmd] is the captured standard output of
    [cmd] run through the shell; [DEBUG_ALLOW_GIT_DIRTY] is the module
    global of that name, [None] when it is not defined. *)
Definition repo_clean (shell_stdout : str -> bytes)
           (DEBUG_ALLOW_GIT_DIRTY : option bool) : io (bool * str) :=
  let cmd := status_cmd in
  let output := shell_stdout cmd in
  match output with
  | _ :: _ =>
      text <- lift (decode output) ;;
      let output := cmd ++ [10%N] ++ text in
      match DEBUG_ALLOW_GIT_DIRTY with
      | Some flag =>
          tell (Print stars) ;;
          tell (Print (py "**** WARNING: Bypassing git clean check ****")) ;;
          tell (Print stars) ;;
          ret (flag, output)
      | None => ret (false, output)
      end
  | [] => ret (true, [])
  end.

(* ===================================================================== *)
(** ** Interactive yes/no prompt                                          *)
(* ===================================================================== *)

(** A [dict] with [str] keys, as an association list. *)
Fixpoint dict_get {V} (d : list (str * V)) (k : str) : option V :=
  match d with
  | [] => None
  | (k', v) :: d' => if str_eqb k k' then Some v else dict_get d' k
  end.

(** [d[k]]: a missing key raises [KeyError]. *)
Definition dict_item {V} (d : list (str * V)) (k : str) : io V :=
  match dict_get d k with
  | Some v => ret v
  | None => raise KeyError
  end.

Definition valid : list (str * bool) :=
  [(py "yes", true); (py "y", true); (py "ye", true);
   (py "no", false); (py "n", false)].

Definition complaint : str :=
  py "Please respond with 'yes' or 'no' (or 'y' or 'n').".

(** The [while True] loop of [query_yes_no] (utils.py, lines 288-296).
    [stdin] holds the lines the terminal delivers, without their newline;
    [input()] raises [EOFError] when there is none left. *)
Fixpoint ask (question prompt : str) (default : option str)
         (stdin : list str) : io bool :=
  tell (Write (question ++ py " " ++ prompt)) ;;
  match stdin with
  | [] => raise EOFError
  | line :: stdin' =>
      let choice := lower line in
      match default, choice with
      | Some d, [] => dict_item valid d
      | _, _ =>
          match dict_get valid choice with
          | Some answer => ret answer
          | None =>
              tell (Write complaint) ;;
              ask question prompt default stdin'
          end
      end
  end.

(** [query_yes_no(question, default, print_func)] (utils.py, lines
    265-296).  Whatever [print_func] is, the texts handed to it are recorded
    as [Write] events. *)
Definition query_yes_no (question : str) (default : option str)
           (stdin : list str) : io bool :=
  match default with
  | None => ask question (py " [y/n] ") default stdin
  | Some d =>
      if str_eqb d (py "yes") then ask question (py " [Y/n] ") default stdin
      else if str_eqb d (py "no") then ask question (py " [y/N] ") default stdin
      else raise ValueError
  end.

(* ===================================================================== *)
(** ** Toolchain version classifier                                       *)
(* ===================================================================== *)

(** [check_vitis] (utils.py, lines 304-309): [and] evaluates its right
    operand, and with it [ver_parts[1]], only when the left one holds. *)
Definition check_vitis (version : str) : result Z :=
  let ver_parts := split 46 version in
  match index ver_parts 0 with
  | Raise e => Raise e
  | Ok p0 =>
      match int p0 with
      | Raise e => Raise e
      | Ok year =>
          if year <=? 2019 then
            match index ver_parts 1 with
            | Raise e => Raise e
            | Ok p1 =>
                match int p1 with
                | Raise e => Raise e
                | Ok minor => if minor <=? 1 then Ok 0 else Ok 1
                end
            end
          else Ok 1
      end
  end.

(* ===================================================================== *)
(** ** Notions used to state the properties                               *)
(* ===================================================================== *)

(** The lines of a byte stream, each with its newline; the last one may
    lack it. *)
Fixpoint lines (s : bytes) : list bytes :=
  match s with
  | [] => []
  | c :: s' =>
      if Byte.eqb c x0a then [c] :: lines s'
      else match lines s' with
           | [] => [[c]]
           | l :: ls => (c :: l) :: ls
           end
  end.


(** The arguments the callback was called with, in order. *)
Fixpoint handled (t : list event) : list str :=
  match t with
  | [] => []
  | LineHandler line :: t' => line :: handled t'
  | _ :: t' => handled t'
  end.


(** The request [_run_blocking] hands to [Popen]. *)
Definition blocking_req (split_cmd : list str) (cwd : str)
           (line_handler : option handler) : popen_req :=
  {| args := split_cmd; cwd := cwd; shell := false;
     pipe := match line_handler with Some _ => true | None => false end |}.

(** What [run_cmd] starts once the command is split. *)
Definition started (sys : os) (split_cmd : list str) (cwd cmd : str)
           (line_handler : option handler) (blocking : bool) : io Z :=
  try_except_OSError
    (if blocking
     then _run_blocking sys split_cmd cwd line_handler cmd
     else _run_nonblocking sys [PList split_cmd; PPath cwd; PStr cmd])
    (tell (Err (py "Command was ") (CmdText cmd)) ;;
     tell (Err (py "Split command was ") (CmdArgs split_cmd))).

(** Sample worlds: a callback that always returns, and an operating
    system in which every child writes [out] and exits with [rc]. *)
Definition quiet : handler := fun _ => None.

Definition child (out : bytes) (rc : Z) : os :=
  fun _ => Starts {| output := out; lingering := 1; returncode := rc |}.

(** A child that writes one indented line, run with a callback. *)
Definition indented_output : bytes := b "  hi" ++ [x0a].

Definition indented_run : io Z :=
  run_cmd (child indented_output 0) (py "/work") (py "echo '  hi'") None true
          (Some quiet) true.

(** A child that writes four lines, the third one empty and the last one
    without a newline. *)
Definition build_output : bytes :=
  b " a" ++ [x0a] ++ b "b  " ++ [x0a; x0a] ++ b "c".

Definition build_run : io Z :=
  run_cmd (child build_output 0) (py "/work") (py "make all") None false
          (Some quiet) true.

(** A child that fails with code 1, run without and with a callback. *)
Definition failing_cmd : str := py "ls  missing".

Definition failing_run (line_handler : option handler) : io Z :=
  run_cmd (child [] 1) (py "/work") failing_cmd None true line_handler true.

(** The defaults [query_yes_no] accepts. *)
Definition valid_default (default : option str) : Prop :=
  default = None \/ default = Some (py "yes") \/ default = Some (py "no").

(** What a re-prompt looks like: the prompt and the complaint are written,
    and the function goes on as if called afresh on the remaining input. *)
Definition reprompts (question : str) (default : option str)
           (prompt : str) (stdin' : list str) (m : io bool) : Prop :=
  m = (Write (question ++ py " " ++ prompt) :: Write complaint
         :: trace (query_yes_no question default stdin'),
       outcome_of (query_yes_no question default stdin')).

Definition prompt_of (default : option str) : str :=
  match default with
  | None => py " [y/n] "
  | Some d => if str_eqb d (py "yes") then py " [Y/n] " else py " [y/N] "
  end.

(* ===================================================================== *)
(** ** Captured command output                                            *)
(* ===================================================================== *)

(** [check_output(cmd, cwd)] (utils.py, lines 299-300):
    [subprocess.check_output(shlex.split(cmd), cwd=cwd).decode().strip()].
    The command is split as it stands, without doubling backslashes.
    [launch args cwd] is what starting the child with its standard output
    captured gives; [output] is then what the child writes to its standard
    output.  A non-zero exit code raises
    [CalledProcessError(retcode, process.args)]. *)
Definition check_output (launch : list str -> option str -> outcome)
           (cmd : str) (cwd : option str) : result str :=
  match Shlex.split cmd with
  | Raise e => Raise e
  | Ok split_cmd =>
      match launch split_cmd cwd with
      | Fails e => Raise e
      | Starts p =>
          if negb (returncode p =? 0)
          then Raise (CalledProcessError (returncode p) (CmdArgs split_cmd))
          else match decode (output p) with
               | Ok text => Ok (strip text)
               | Raise e => Raise e
               end
      end
  end.

(* ===================================================================== *)
(** ** Logging helpers                                                    *)
(* ===================================================================== *)

Module Logging.

(** The keyword arguments of the built-in [print]; [None] stands for an
    argument that is not given.  [kw_file = None] is the standard output. *)
Record kwargs := {
  kw_sep : option str;
  kw_end : option str;
  kw_file : option str;
  kw_flush : option bool
}.

Definition no_kwargs : kwargs :=
  {| kw_sep := None; kw_end := None; kw_file := None; kw_flush := None |}.

(** [print(..., end=s)]. *)
Definition only_end (s : str) : kwargs :=
  {| kw_sep := None; kw_end := Some s; kw_file := None; kw_flush := None |}.

(** One call of the built-in [print]: the text written, where, and whether
    the stream was flushed afterwards. *)
Inductive emission :=
| Emit (file : option str) (text : str) (flushed : bool).

(** [sep.join(parts)]. *)
Fixpoint join (sep : str) (parts : list str) : str :=
  match parts with
  | [] => []
  | [x] => x
  | x :: rest => x ++ sep ++ join sep rest
  end.

Definition default (A : Type) (o : option A) (d : A) : A :=
  match o with Some a => a | None => d end.
Arguments default {A} o d.

(** The built-in [print], kept by the module as [default_print]: the
    arguments (given here as the strings [str()] turns them into) joined by
    [sep], then [end]. *)
Definition default_print (args : list str) (kw : kwargs) : emission :=
  Emit (kw_file kw)
       (join (default (kw_sep kw) (py " ")) args
        ++ default (kw_end kw) [10%N])
       (default (kw_flush kw) false).

(** The module's own [print] (utils.py, lines 213-215):
    [kwargs["flush"] = True] replaces whatever the caller asked for. *)
Definition print (args : list str) (kw : kwargs) : emission :=
  default_print args
    {| kw_sep := kw_sep kw; kw_end := kw_end kw; kw_file := kw_file kw;
       kw_flush := Some true |}.

(** The escape sequences of the colour library, which is not part of the
    repository. *)
Record colorama := {
  Fore_RED : str;
  Fore_MAGENTA : str;
  Fore_YELLOW : str;
  Fore_GREEN : str;
  Fore_RESET : str;
  Style_BRIGHT : str;
  Style_RESET_ALL : str
}.

Section Helpers.

(** [HAS_COLORAMA] is [Some] of the library when its import succeeded. *)
Variable HAS_COLORAMA : option colorama.

(** [if HAS_COLORAMA: print(code, ...)]. *)
Definition colored (code : colorama -> str) (kw : kwargs) : list emission :=
  match HAS_COLORAMA with
  | Some c => [print [code c] kw]
  | None => []
  end.

(** utils.py, lines 172-177. *)
Definition err (args : list str) (kw : kwargs) : list emission :=
  colored (fun c => Fore_RED c ++ Style_BRIGHT c) (only_end [])
  ++ [print args kw]
  ++ colored (fun c => Fore_RESET c ++ Style_RESET_ALL c) (only_end []).

(** utils.py, lines 180-185. *)
Definition critical_warning (args : list str) (kw : kwargs) : list emission :=
  colored (fun c => Fore_MAGENTA c ++ Style_BRIGHT c) (only_end [])
  ++ [print args kw]
  ++ colored (fun c => Fore_RESET c ++ Style_RESET_ALL c) (only_end []).

(** utils.py, lines 188-193. *)
Definition warning (args : list str) (kw : kwargs) : list emission :=
  colored Fore_YELLOW (only_end [])
  ++ [print args kw]
  ++ colored (fun c => Fore_RESET c ++ Style_RESET_ALL c) (only_end []).

(** utils.py, lines 196-202. *)
Definition info (args : list str) (kw : kwargs) : list emission :=
  colored Fore_RESET (only_end [])
  ++ [print args kw]
  ++ colored (fun c => Fore_RESET c ++ Style_RESET_ALL c) (only_end []).

(** utils.py, lines 205-210: the closing [print(Fore.RESET)] has no
    [end] argument. *)
Definition success (args : list str) (kw : kwargs) : list emission :=
  colored Fore_GREEN (only_end [])
  ++ [print args kw]
  ++ colored Fore_RESET no_kwargs.

End Helpers.

(** The five helpers, to speak about all of them at once. *)
Inductive level := Error | Critical | Warning | Info | Success.

Definition helper (l : level)
  : option colorama -> list str -> kwargs -> list emission :=
  match l with
  | Error => err
  | Critical => critical_warning
  | Warning => warning
  | Info => info
  | Success => success
  end.

Definition flushed_of (e : emission) : bool :=
  match e with Emit _ _ f => f end.

Definition file_of (e : emission) : option str :=
  match e with Emit f _ _ => f end.

Definition text_of (e : emission) : str :=
  match e with Emit _ t _ => t end.

(** What ends up on the standard output, in order. *)
Fixpoint console (es : list emission) : str :=
  match es with
  | [] => []
  | Emit None t _ :: es' => t ++ console es'
  | Emit (Some _) _ _ :: es' => console es'
  end.

(** The sequence a helper opens with and the text it closes with, when
    the colour library is there. *)
Definition opening (l : level) (c : colorama) : str :=
  match l with
  | Error => Fore_RED c ++ Style_BRIGHT c
  | Critical => Fore_MAGENTA c ++ Style_BRIGHT c
  | Warning => Fore_YELLOW c
  | Info => Fore_RESET c
  | Success => Fore_GREEN c
  end.

Definition closing (l : level) (c : colorama) : str :=
  match l with
  | Success => Fore_RESET c ++ [10%N]
  | _ => Fore_RESET c ++ Style_RESET_ALL c
  end.

(** The text [print] writes for the caller's arguments. *)
Definition rendered (args : list str) (kw : kwargs) : str :=
  join (default (kw_sep kw) (py " ")) args ++ default (kw_end kw) [10%N].

End Logging.

(* ===================================================================== *)
(** ** Further notions used to state properties                           *)
(* ===================================================================== *)

(** What the loop of [_run_blocking] does, told over the lines of the
    output: decode, strip, call the callback, stop at the first
    exception. *)
Fixpoint feed (h : handler) (ls : list bytes) : io unit :=
  match ls with
  | [] => ret tt
  | l :: ls' =>
      line <- lift (decode l) ;;
      call_handler h (strip line) ;;
      feed h ls'
  end.

(** The same operating system with children that linger [k] polls. *)
Definition with_lingering (k : nat) (sys : os) : os :=
  fun r =>
    match sys r with
    | Fails e => Fails e
    | Starts p =>
        Starts {| output := output p; lingering := k;
                  returncode := returncode p |}
    end.


(** The texts printed with [print], in order. *)
Fixpoint printed (t : list event) : list str :=
  match t with
  | [] => []
  | Print s :: t' => s :: printed t'
  | _ :: t' => printed t'
  end.

(** What [print] and [err] put on the console, in order; the output of
    the child itself is not part of it. *)
Fixpoint shown (t : list event) : list event :=
  match t with
  | [] => []
  | Print s :: t' => Print s :: shown t'
  | Err label what :: t' => Err label what :: shown t'
  | Write s :: t' => Write s :: shown t'
  | _ :: t' => shown t'
  end.


(** The header [run_cmd] prints for a blocking command. *)
Definition header_lines (cmd cwd : str) : list str :=
  [[]; bar; py "Running command:"; cmd; py "From directory " ++ cwd].

(** What [run_cmd] logs when the start of the child fails. *)
Definition launch_log (cmd : str) (split_cmd : list str) : list event :=
  [Err (py "Command was ") (CmdText cmd);
   Err (py "Split command was ") (CmdArgs split_cmd)].

(** A word that needs no quoting: not empty, no whitespace, no quote
    character.  Backslashes are allowed. *)
Definition plain_char (c : N) : bool :=
  negb (Shlex.whitespace c) && negb (Shlex.quotes c).

Definition plain_word (w : str) : Prop :=
  w <> [] /\ forallb plain_char w = true.

(** No whitespace at either end. *)
Definition trimmed (s : str) : Prop := lstrip s = s /\ rstrip s = s.

(** What one line of input means to [query_yes_no]: an answer, or [None]
    when the question is asked again. *)
Definition answer_of (default : option str) (line : str) : option bool :=
  match default, lower line with
  | Some d, [] => dict_get valid d
  | _, _ => dict_get valid (lower line)
  end.

(** What is written for a line that is not understood. *)
Definition asked_again (question : str) (default : option str) : list event :=
  [Write (question ++ py " " ++ prompt_of default); Write complaint].

(** Sample inputs. *)
Definition garbled_output : bytes := b "ok" ++ [x0a; xff; x0a] ++ b "late".


Definition missing_tool : os := fun _ => Fails FileNotFoundError.

Definition captured (out : bytes) (rc : Z) : list str -> option str -> outcome :=
  fun _ _ => Starts {| output := out; lingering := 0; returncode := rc |}.

(* ===================================================================== *)
(** ** Properties of the version classifier                               *)
(* ===================================================================== *)

(** The built-ins on a few inputs. *)
Example int_examples :
  List.map int_opt [py "2019"; py " +2_019 "; py "-7"; py "007"; py "";
                    py "1__0"; py "_1"; py "1_"; py "0x10"; py "+ 1"]
  = [Some 2019; Some 2019; Some (-7); Some 7; None;
     None; None; None; None; None].
Proof. reflexivity. Qed.

Example int_unicode_examples :
  List.map int_opt
    [31%N :: py "2019"; [65298; 65296; 65298; 65296]%N;
     [1634; 1632; 1633; 1641]%N; 160%N :: py "2019" ++ [8232%N];
     repeat 48%N 4300; repeat 48%N 4301; 49%N :: repeat 48%N 4300]
  = [None; Some 2020; Some 2019; Some 2019; Some 0; None; None].
Proof. vm_compute. reflexivity. Qed.

Example check_vitis_unicode_examples :
  List.map check_vitis
    [31%N :: py "2019.1"; [65298; 65296; 65298; 65296]%N ++ py ".1";
     28%N :: py "2019"; [1634; 1632; 1633; 1641]%N; repeat 48%N 4301]
  = [Raise ValueError; Ok 1; Raise ValueError; Raise IndexError;
     Raise ValueError].
Proof. vm_compute. reflexivity. Qed.

Example split_examples :
  split 46 (py "2019.1.3") = [py "2019"; py "1"; py "3"] /\
  split 46 (py "2019.") = [py "2019"; []] /\
  split 46 [] = [[]].
Proof. repeat split; reflexivity. Qed.

Example strip_examples :
  strip (py "  a b " ++ [10%N]) = py "a b" /\
  rstrip (py "  a b " ++ [10%N]) = py "  a b" /\
  strip [160%N; 9%N] = [].
Proof. repeat split; reflexivity. Qed.

Example decode_examples :
  decode_utf8 (b "ok") = Some (py "ok") /\
  decode_utf8 [xc3; xa9] = Some [233%N] /\
  decode_utf8 [xe2; x82; xac] = Some [8364%N] /\
  decode_utf8 [xc0; x80] = None /\
  decode_utf8 [xed; xa0; x80] = None /\
  decode_utf8 [xff] = None /\
  decode_utf8 [xc3] = None.
Proof. repeat split; reflexivity. Qed.

Example shlex_examples :
  Shlex.split (py "vivado  -mode batch")
  = Ok [py "vivado"; py "-mode"; py "batch"]
  /\ Shlex.split (py "echo 'a b' ''") = Ok [py "echo"; py "a b"; []]
  /\ Shlex.split (escape_backslashes (py "dir C:\proj"))
     = Ok [py "dir"; py "C:\proj"]
  /\ Shlex.split (py "dir C:\proj") = Ok [py "dir"; py "C:proj"]
  /\ Shlex.split (py "echo 'open") = Raise ValueError
  /\ Shlex.split [] = Ok [].
Proof. repeat split; reflexivity. Qed.

Example readline_examples :
  readline (b "ab" ++ [x0a] ++ b "cd") = (b "ab" ++ [x0a], b "cd") /\
  readline (b "cd") = (b "cd", []) /\
  readline [] = ([], []).
Proof. repeat split; reflexivity. Qed.

Lemma split_aux_no_sep (sep : N) (s cur : str) :
  (forall c, In c s -> c <> sep) ->
  split_aux sep cur s = [rev cur ++ s].
Proof.
  revert cur. induction s as [|c s IH]; intros cur Hno; cbn.
  - now rewrite app_nil_r.
  - destruct (N.eqb_spec c sep) as [->|_].
    + exfalso. apply (Hno sep); [now left | reflexivity].
    + rewrite IH by (intros d Hd; apply Hno; now right).
      cbn. now rewrite <- app_assoc.
Qed.

Lemma split_nonempty (sep : N) (s cur : str) : split_aux sep cur s <> [].
Proof.
  revert cur. induction s as [|c s IH]; intros cur; cbn; [discriminate|].
  destruct (N.eqb c sep); [discriminate | apply IH].
Qed.

(** [ver_parts[0]] always exists. *)
Lemma split_first (sep : N) (s : str) :
  exists p0, nth_error (split sep s) 0 = Some p0.
Proof.
  unfold split. destruct (split_aux sep [] s) as [|p0 ps] eqn:E.
  - now apply split_nonempty in E.
  - now exists p0.
Qed.

(** C1. Of the four test vectors of the version classifier, three hold on
    the code: "2019.1" gives 0, "2019.2" and "2020.1" give 1.  On "2018.9"
    the code returns 1, not the 0 the vector asks for: the minor number 9
    is compared with 1 on its own, whatever the year. *)
Theorem check_vitis_test_vectors :
  check_vitis (py "2019.1") = Ok 0 /\
  check_vitis (py "2019.2") = Ok 1 /\
  check_vitis (py "2020.1") = Ok 1 /\
  check_vitis (py "2018.9") = Ok 1.
Proof. repeat split; reflexivity. Qed.

(** C7, as stated, fails: in "2020.x" the second component is not an
    integer, and the classifier returns 1 instead of raising. *)
Lemma check_vitis_second_component_ignored :
  int_opt (py "x") = None /\
  split 46 (py "2020.x") = [py "2020"; py "x"] /\
  check_vitis (py "2020.x") = Ok 1.
Proof. repeat split; reflexivity. Qed.

(** C7, amended.  Let [p0] be the first dot-separated component of the
    version string.  If [p0] is not an integer, the classifier raises.  If
    [p0] is an integer above 2019, it returns 1 and the second component is
    not looked at.  If [p0] is an integer at most 2019 and the second
    component [p1] exists, it raises when [p1] is not an integer, returns 0
    when [p1] is an integer at most 1, and returns 1 otherwise.  So when
    both components are integers the result is 0 exactly when the first is
    at most 2019 and the second at most 1, and 1 otherwise. *)
Theorem check_vitis_threshold (version p0 : str) :
  nth_error (split 46 version) 0 = Some p0 ->
  (int_opt p0 = None -> check_vitis version = Raise ValueError) /\
  (forall year, int_opt p0 = Some year -> 2019 < year ->
                check_vitis version = Ok 1) /\
  (forall year p1, int_opt p0 = Some year -> year <= 2019 ->
                   nth_error (split 46 version) 1 = Some p1 ->
                   int_opt p1 = None ->
                   check_vitis version = Raise ValueError) /\
  (forall year minor p1,
      int_opt p0 = Some year ->
      nth_error (split 46 version) 1 = Some p1 ->
      int_opt p1 = Some minor ->
      check_vitis version
      = Ok (if (year <=? 2019) && (minor <=? 1) then 0 else 1) /\
      (check_vitis version = Ok 0 <-> year <= 2019 /\ minor <= 1)).
Proof.
  intros H0. unfold check_vitis, index, int. rewrite H0.
  split; [|split; [|split]].
  - intros ->. reflexivity.
  - intros year -> Hy.
    destruct (Z.leb_spec year 2019); [lia | reflexivity].
  - intros year p1 -> Hy H1 Hp1.
    destruct (Z.leb_spec year 2019); [|lia].
    rewrite H1, Hp1. reflexivity.
  - intros year minor p1 -> -> ->.
    destruct (Z.leb_spec year 2019); cbn.
    + destruct (Z.leb_spec minor 1); (split; [reflexivity|]).
      * split; [lia | reflexivity].
      * split; [discriminate | lia].
    + split; [reflexivity|]. split; [discriminate | lia].
Qed.

Lemma check_vitis_threshold_witness :
  check_vitis (py "x.1") = Raise ValueError /\
  check_vitis (py "2022.1") = Ok 1 /\
  check_vitis (py "2019.x") = Raise ValueError /\
  check_vitis (py "2019.1") = Ok 0.
Proof.
  split; [|split; [|split]].
  - destruct (check_vitis_threshold (py "x.1") (py "x") eq_refl)
      as (H & _).
    apply H. reflexivity.
  - destruct (check_vitis_threshold (py "2022.1") (py "2022") eq_refl)
      as (_ & H & _).
    apply (H 2022); [reflexivity | lia].
  - destruct (check_vitis_threshold (py "2019.x") (py "2019") eq_refl)
      as (_ & _ & H & _).
    apply (H 2019 (py "x")); [reflexivity | lia | reflexivity | reflexivity].
  - destruct (check_vitis_threshold (py "2019.1") (py "2019") eq_refl)
      as (_ & _ & _ & H).
    destruct (H 2019 1 (py "1") eq_refl eq_refl eq_refl) as [_ [_ H']].
    apply H'. lia.
Defined.

(** C10. For a version string without a dot whose single component is an
    integer [n]: above 2019 the classifier returns 1 without raising (the
    second component is never asked for); at most 2019 it raises
    [IndexError], the list of components having no element of index 1. *)
Theorem check_vitis_single_component (version : str) (n : Z) :
  (forall c, In c version -> c <> 46%N) ->
  int_opt version = Some n ->
  split 46 version = [version] /\
  (2019 < n -> check_vitis version = Ok 1) /\
  (n <= 2019 -> check_vitis version = Raise IndexError).
Proof.
  intros Hdot Hint.
  assert (Hs : split 46 version = [version])
    by (unfold split; now rewrite split_aux_no_sep).
  split; [exact Hs|].
  unfold check_vitis, index, int. rewrite Hs. cbn. rewrite Hint.
  split; intros Hn.
  - destruct (Z.leb_spec n 2019); [lia | reflexivity].
  - destruct (Z.leb_spec n 2019); [reflexivity | lia].
Qed.

Lemma no_dot_2020 : forall c, In c (py "2020") -> c <> 46%N.
Proof. cbn. intros c [<-|[<-|[<-|[<-|[]]]]]; discriminate. Qed.

Lemma no_dot_2019 : forall c, In c (py "2019") -> c <> 46%N.
Proof. cbn. intros c [<-|[<-|[<-|[<-|[]]]]]; discriminate. Qed.

Lemma check_vitis_single_component_witness :
  check_vitis (py "2020") = Ok 1 /\
  check_vitis (py "2019") = Raise IndexError.
Proof.
  split.
  - apply (check_vitis_single_component (py "2020") 2020 no_dot_2020 eq_refl).
    lia.
  - apply (check_vitis_single_component (py "2019") 2019 no_dot_2019 eq_refl).
    lia.
Defined.

(* ===================================================================== *)
(** ** Properties of the yes/no prompt                                    *)
(* ===================================================================== *)

Lemma str_eqb_eq (a b : str) : str_eqb a b = true <-> a = b.
Proof.
  revert b. induction a as [|x a IH]; intros [|y b]; cbn;
    try (split; [discriminate | discriminate]); [tauto|].
  rewrite andb_true_iff, N.eqb_eq, IH.
  split; [intros [-> ->]; reflexivity | intros [= -> ->]; auto].
Qed.

Lemma dict_get_valid_None (choice : str) :
  ~ In choice (List.map fst valid) -> dict_get valid choice = None.
Proof.
  intros Hn. cbn in *.
  repeat match goal with
         | |- context [str_eqb choice ?k] =>
             destruct (str_eqb choice k) eqn:E;
             [apply str_eqb_eq in E; exfalso; apply Hn; rewrite E; tauto
             | clear E]
         end.
  reflexivity.
Qed.

Lemma ask_step (question prompt : str) (default : option str)
      (line : str) (stdin : list str) :
  ask question prompt default (line :: stdin)
  = (tell (Write (question ++ py " " ++ prompt)) ;;
     match default, lower line with
     | Some d, [] => dict_item valid d
     | _, _ =>
         match dict_get valid (lower line) with
         | Some answer => ret answer
         | None =>
             tell (Write complaint) ;; ask question prompt default stdin
         end
     end).
Proof. reflexivity. Qed.

Lemma query_yes_no_ask (question : str) (default : option str)
      (stdin : list str) :
  valid_default default ->
  query_yes_no question default stdin
  = ask question (prompt_of default) default stdin.
Proof. intros [->|[->| ->]]; reflexivity. Qed.

Lemma ask_unrecognized (question prompt : str) (default : option str)
      (line : str) (stdin : list str) :
  dict_get valid (lower line) = None ->
  line <> [] \/ default = None ->
  ask question prompt default (line :: stdin)
  = (Write (question ++ py " " ++ prompt) :: Write complaint
       :: trace (ask question prompt default stdin),
     outcome_of (ask question prompt default stdin)).
Proof.
  intros Hget Hne. rewrite ask_step, Hget.
  destruct (ask question prompt default stdin) as [t r] eqn:E.
  assert (Hm : match default, lower line with
               | Some d, [] => dict_item valid d
               | _, _ => tell (Write complaint) ;; (t, r)
               end = (tell (Write complaint) ;; (t, r))).
  { destruct default as [d|]; [|now destruct (lower line)].
    destruct line as [|c line]; [|reflexivity].
    destruct Hne as [Hne|Hne]; [now elim Hne | discriminate]. }
  rewrite Hm. destruct r; reflexivity.
Qed.

(** C5. [query_yes_no] on a first input line [line]: a default other than
    "yes", "no" or None raises at once, with nothing written and whatever
    the input; with a valid default, a line that lower-cases to yes, y or ye
    gives true and one that lower-cases to no or n gives false, after the
    prompt was written once; an empty line gives the default's boolean when
    there is a default, and re-prompts when there is none; a line that is
    not recognized re-prompts. *)
Theorem query_yes_no_contract (question : str) (default : option str)
        (line : str) (stdin : list str) :
  (~ valid_default default ->
   forall input, query_yes_no question default input = ([], Raise ValueError))
  /\
  (valid_default default ->
   let prompted := [Write (question ++ py " " ++ prompt_of default)] in
   let m := query_yes_no question default (line :: stdin) in
   (In (lower line) [py "yes"; py "y"; py "ye"] -> m = (prompted, Ok true)) /\
   (In (lower line) [py "no"; py "n"] -> m = (prompted, Ok false)) /\
   (line = [] -> default = Some (py "yes") -> m = (prompted, Ok true)) /\
   (line = [] -> default = Some (py "no") -> m = (prompted, Ok false)) /\
   (line = [] -> default = None ->
    reprompts question default (prompt_of default) stdin m) /\
   (line <> [] -> ~ In (lower line) (List.map fst valid) ->
    reprompts question default (prompt_of default) stdin m)).
Proof.
  split.
  - intros Hbad input. destruct default as [d|].
    + unfold query_yes_no.
      destruct (str_eqb d (py "yes")) eqn:Ey.
      { apply str_eqb_eq in Ey. subst d. elim Hbad. right; left; reflexivity. }
      destruct (str_eqb d (py "no")) eqn:En.
      { apply str_eqb_eq in En. subst d. elim Hbad. right; right; reflexivity. }
      reflexivity.
    + elim Hbad. left; reflexivity.
  - intros Hv prompted m. subst prompted m.
    rewrite (query_yes_no_ask _ _ _ Hv).
    split; [|split; [|split; [|split; [|split]]]].
    + intros Hin. rewrite ask_step.
      destruct Hin as [<-|[<-|[<-|[]]]]; destruct default; reflexivity.
    + intros Hin. rewrite ask_step.
      destruct Hin as [<-|[<-|[]]]; destruct default; reflexivity.
    + intros -> ->. reflexivity.
    + intros -> ->. reflexivity.
    + intros -> ->. unfold reprompts.
      rewrite ask_unrecognized; [reflexivity | reflexivity | now right].
    + intros Hne Hnot. unfold reprompts.
      rewrite (query_yes_no_ask _ _ _ Hv).
      apply ask_unrecognized; [now apply dict_get_valid_None | now left].
Qed.

Lemma maybe_not_valid_default : ~ valid_default (Some (py "maybe")).
Proof. intros [H|[H|H]]; discriminate. Qed.

Lemma hm_not_a_token : ~ In (lower (py "hm")) (List.map fst valid).
Proof. cbn. intros [H|[H|[H|[H|[H|[]]]]]]; discriminate. Qed.

Lemma query_yes_no_contract_witness :
  query_yes_no (py "Go?") (Some (py "maybe")) [py "y"] = ([], Raise ValueError)
  /\ outcome_of (query_yes_no (py "Go?") (Some (py "no")) [py "YES"]) = Ok true
  /\ outcome_of (query_yes_no (py "Go?") None [py "N"]) = Ok false
  /\ outcome_of (query_yes_no (py "Go?") (Some (py "yes")) [[]]) = Ok true
  /\ outcome_of (query_yes_no (py "Go?") (Some (py "no")) [[]]) = Ok false
  /\ outcome_of (query_yes_no (py "Go?") None [[]; py "y"]) = Ok true
  /\ outcome_of (query_yes_no (py "Go?") (Some (py "yes")) [py "hm"; py "n"])
     = Ok false.
Proof.
  split; [|split; [|split; [|split; [|split; [|split]]]]].
  - destruct (query_yes_no_contract (py "Go?") (Some (py "maybe")) [] [])
      as [H _].
    apply H. exact maybe_not_valid_default.
  - destruct (query_yes_no_contract (py "Go?") (Some (py "no")) (py "YES") [])
      as [_ H].
    destruct (H (or_intror (or_intror eq_refl))) as (H1 & _).
    exact (f_equal snd (H1 (or_introl eq_refl))).
  - destruct (query_yes_no_contract (py "Go?") None (py "N") []) as [_ H].
    destruct (H (or_introl eq_refl)) as (_ & H2 & _).
    exact (f_equal snd (H2 (or_intror (or_introl eq_refl)))).
  - destruct (query_yes_no_contract (py "Go?") (Some (py "yes")) [] [])
      as [_ H].
    destruct (H (or_intror (or_introl eq_refl))) as (_ & _ & H3 & _).
    exact (f_equal snd (H3 eq_refl eq_refl)).
  - destruct (query_yes_no_contract (py "Go?") (Some (py "no")) [] [])
      as [_ H].
    destruct (H (or_intror (or_intror eq_refl))) as (_ & _ & _ & H4 & _).
    exact (f_equal snd (H4 eq_refl eq_refl)).
  - destruct (query_yes_no_contract (py "Go?") None [] [py "y"]) as [_ H].
    destruct (H (or_introl eq_refl)) as (_ & _ & _ & _ & H5 & _).
    exact (f_equal snd (H5 eq_refl eq_refl)).
  - destruct (query_yes_no_contract (py "Go?") (Some (py "yes")) (py "hm")
                                    [py "n"]) as [_ H].
    destruct (H (or_intror (or_introl eq_refl))) as (_ & _ & _ & _ & _ & H6).
    refine (f_equal snd (H6 _ hm_not_a_token)). discriminate.
Defined.

(* ===================================================================== *)
(** ** Properties of the repository check                                 *)
(* ===================================================================== *)

(** C6, as stated, fails: when the status query prints bytes that are
    not well-formed UTF-8 the output is not empty, and [repo_clean] raises
    [UnicodeDecodeError] instead of returning [False] and a text. *)
Lemma repo_clean_undecodable_status :
  (fun _ : str => [xff]) status_cmd <> [] /\
  outcome_of (repo_clean (fun _ => [xff]) None) = Raise UnicodeDecodeError /\
  ~ (exists s, outcome_of (repo_clean (fun _ => [xff]) None) = Ok (false, s)).
Proof.
  split; [discriminate|]. split; [reflexivity|].
  intros [s H]. discriminate.
Qed.

(** C6, amended. With the debug override not set, [repo_clean] returns
    [True] and the empty string exactly when the status query prints nothing.
    When it prints something that is well-formed UTF-8 (decoding to [text]),
    the result is [False] and the command text, a newline and [text].  When
    it prints something that is not well-formed UTF-8, [repo_clean] raises
    [UnicodeDecodeError]. *)
Theorem repo_clean_contract (shell_stdout : str -> bytes) :
  (outcome_of (repo_clean shell_stdout None) = Ok (true, [])
   <-> shell_stdout status_cmd = []) /\
  (forall text,
      shell_stdout status_cmd <> [] ->
      decode_utf8 (shell_stdout status_cmd) = Some text ->
      repo_clean shell_stdout None
      = ([], Ok (false, status_cmd ++ [10%N] ++ text))) /\
  (shell_stdout status_cmd <> [] ->
   decode_utf8 (shell_stdout status_cmd) = None ->
   repo_clean shell_stdout None = ([], Raise UnicodeDecodeError)).
Proof.
  unfold repo_clean.
  destruct (shell_stdout status_cmd) as [|c out] eqn:E;
    (split; [|split]).
  - split; reflexivity.
  - intros text Hne. now elim Hne.
  - intros Hne. now elim Hne.
  - split; [|discriminate].
    unfold decode. destruct (decode_utf8 (c :: out)); discriminate.
  - intros text _ Hdec. unfold decode. rewrite Hdec. reflexivity.
  - intros _ Hdec. unfold decode. rewrite Hdec. reflexivity.
Qed.

Lemma repo_clean_contract_witness :
  outcome_of (repo_clean (fun _ => []) None) = Ok (true, []) /\
  outcome_of (repo_clean (fun _ => b " M utils.py") None)
  = Ok (false, py "git status --porcelain" ++ [10%N] ++ py " M utils.py") /\
  outcome_of (repo_clean (fun _ => [x4d; x20; xe9]) None)
  = Raise UnicodeDecodeError.
Proof.
  split; [|split].
  - apply (repo_clean_contract (fun _ => [])). reflexivity.
  - destruct (repo_clean_contract (fun _ => b " M utils.py")) as (_ & H & _).
    rewrite (H (py " M utils.py")); [reflexivity | discriminate | reflexivity].
  - destruct (repo_clean_contract (fun _ => [x4d; x20; xe9])) as (_ & _ & H).
    rewrite H; [reflexivity | discriminate | reflexivity].
Defined.

(* ===================================================================== *)
(** ** Properties of the command runner                                   *)
(* ===================================================================== *)

Lemma bind_ret {A B} (a : A) (k : A -> io B) : bind (ret a) k = k a.
Proof. unfold bind, ret. now destruct (k a). Qed.

Lemma bind_lift_Ok {A B} (a : A) (k : A -> io B) : bind (lift (Ok a)) k = k a.
Proof. exact (bind_ret a k). Qed.

Lemma bind_lift_Raise {A B} (e : exn) (k : A -> io B) :
  bind (lift (Raise e)) k = ([], Raise e).
Proof. reflexivity. Qed.

Lemma bind_ret_r {A} (m : io A) : bind m (fun a => ret a) = m.
Proof. destruct m as [t [a|e]]; cbn; now rewrite ?app_nil_r. Qed.

Lemma bind_tell {B} (e : event) (k : unit -> io B) :
  bind (tell e) k = (e :: trace (k tt), outcome_of (k tt)).
Proof. unfold bind, tell. now destruct (k tt). Qed.

Lemma bind_pair {A B} (t : list event) (r : result A) (k : A -> io B) :
  bind (t, r) k
  = match r with
    | Ok a => (t ++ trace (k a), outcome_of (k a))
    | Raise e => (t, Raise e)
    end.
Proof. unfold bind. destruct r as [a|e]; [now destruct (k a) | reflexivity]. Qed.

Lemma readline_nil (s r : bytes) : readline s = ([], r) -> s = [] /\ r = [].
Proof.
  destruct s as [|x s]; cbn.
  - intros [= <-]. auto.
  - destruct (Byte.eqb x x0a); [discriminate|].
    destruct (readline s); discriminate.
Qed.

(** The lines of a stream are a partition of it. *)
Lemma concat_lines (s : bytes) : List.concat (lines s) = s.
Proof.
  induction s as [|c s IH]; cbn; [reflexivity|].
  destruct (Byte.eqb c x0a); cbn; [now rewrite IH|].
  destruct (lines s) as [|l ls]; cbn in *; now rewrite <- IH.
Qed.

Lemma lines_readline (s : bytes) (c : byte) (l r : bytes) :
  readline s = (c :: l, r) -> lines s = (c :: l) :: lines r.
Proof.
  revert c l r. induction s as [|x s IH]; intros c l r; cbn.
  - discriminate.
  - destruct (Byte.eqb x x0a).
    + intros [= <- <- <-]. reflexivity.
    + destruct (readline s) as [l' r'] eqn:E.
      intros [= <- <- <-].
      destruct l' as [|c' l''].
      * apply readline_nil in E as [-> ->]. reflexivity.
      * rewrite (IH c' l'' r' eq_refl). reflexivity.
Qed.

Lemma handled_app (t u : list event) : handled (t ++ u) = handled t ++ handled u.
Proof.
  induction t as [|e t IH]; cbn; [reflexivity|].
  destruct e; cbn; now rewrite IH.
Qed.

Lemma call_handler_eq (h : handler) (line : str) :
  call_handler h line
  = ([LineHandler line],
     match h line with None => Ok tt | Some e => Raise e end).
Proof. unfold call_handler. now destruct (h line). Qed.


(** The loop starts no process. *)
Lemma read_loop_no_popen (h : handler) (out : bytes) (n : nat) (r : popen_req) :
  ~ In (Popen r) (trace (read_loop h out n)).
Proof.
  funelim (read_loop h out n).
  - unfold decode. destruct (decode_utf8 (c :: l)) as [t|];
      [rewrite bind_lift_Ok | rewrite bind_lift_Raise; cbn; tauto].
    rewrite call_handler_eq, bind_pair.
    destruct (line_handler (strip t)); cbn; [intuition discriminate|].
    specialize (H t tt r). intuition discriminate.
  - cbn. tauto.
  - apply H.
Qed.

Lemma header_eq (cmd cwd : str) (silent blocking : bool) :
  _print_cmd_header cmd cwd silent blocking
  = (trace (_print_cmd_header cmd cwd silent blocking), Ok tt).
Proof. destruct silent; reflexivity. Qed.

Lemma footer_eq (silent : bool) :
  _print_cmd_footer silent = (trace (_print_cmd_footer silent), Ok tt).
Proof. destruct silent; reflexivity. Qed.

Lemma header_prints (cmd cwd : str) (silent blocking : bool) (e : event) :
  In e (trace (_print_cmd_header cmd cwd silent blocking)) ->
  exists s, e = Print s.
Proof.
  destruct silent; cbn; [tauto|].
  intros [<-|[<-|[<-|[<-|[<-|[]]]]]]; eexists; reflexivity.
Qed.

Lemma footer_prints (silent : bool) (e : event) :
  In e (trace (_print_cmd_footer silent)) -> exists s, e = Print s.
Proof.
  destruct silent; cbn; [tauto|].
  intros [<-|[]]; eexists; reflexivity.
Qed.

Lemma run_cmd_unfold (sys : os) (getcwd cmd : str) (cwd : option str)
      (silent : bool) (line_handler : option handler) (blocking : bool) :
  run_cmd sys getcwd cmd cwd silent line_handler blocking
  = match Shlex.split (escape_backslashes cmd) with
    | Raise e => ([], Raise e)
    | Ok split_cmd =>
        let d := resolve_cwd getcwd cwd in
        let head := trace (_print_cmd_header cmd d silent blocking) in
        let m := started sys split_cmd d cmd line_handler blocking in
        match outcome_of m with
        | Ok rc => (head ++ trace m ++ trace (_print_cmd_footer silent), Ok rc)
        | Raise e => (head ++ trace m, Raise e)
        end
    end.
Proof.
  unfold run_cmd.
  destruct (Shlex.split (escape_backslashes cmd)) as [split_cmd|e];
    [|reflexivity].
  rewrite bind_lift_Ok, header_eq, bind_pair.
  fold (started sys split_cmd (resolve_cwd getcwd cwd) cmd line_handler blocking).
  destruct (started sys split_cmd (resolve_cwd getcwd cwd) cmd line_handler
                    blocking) as [t [rc|e]]; cbn [trace outcome_of fst snd].
  - rewrite bind_pair, footer_eq, bind_pair. cbn [trace outcome_of fst snd ret].
    now rewrite app_nil_r.
  - rewrite bind_pair. reflexivity.
Qed.

Lemma try_except_outcome {A} (body : io A) (on_error : io unit) :
  (exists t, on_error = (t, Ok tt)) ->
  outcome_of (try_except_OSError body on_error) = outcome_of body.
Proof.
  intros [t ->]. destruct body as [tb [a|e]]; cbn; [reflexivity|].
  now destruct (is_OSError e).
Qed.

Lemma try_except_trace {A} (body : io A) (on_error : io unit) (r : popen_req) :
  (forall q, ~ In (Popen q) (trace on_error)) ->
  In (Popen r) (trace (try_except_OSError body on_error)) ->
  In (Popen r) (trace body).
Proof.
  intros Hno. destruct body as [tb [a|e]]; cbn; [tauto|].
  destruct (is_OSError e); cbn; [|tauto].
  destruct on_error as [t [u|e']]; cbn in *; rewrite in_app_iff;
    intros [H|H]; auto; now apply Hno in H.
Qed.


(** [_run_blocking], case by case. *)
Lemma run_blocking_eq (sys : os) (split_cmd : list str) (cwd : str)
      (line_handler : option handler) (cmd : str) :
  let req := blocking_req split_cmd cwd line_handler in
  _run_blocking sys split_cmd cwd line_handler cmd
  = match sys req with
    | Fails e => ([Popen req], Raise e)
    | Starts p =>
        let rc := returncode p in
        match line_handler with
        | None =>
            ([Popen req; Streamed (output p)],
             if rc =? 0 then Ok rc
             else Raise (CalledProcessError rc (CmdArgs split_cmd)))
        | Some h =>
            let loop := read_loop h (output p) (lingering p) in
            (Popen req :: trace loop,
             match outcome_of loop with
             | Raise e => Raise e
             | Ok _ =>
                 if rc =? 0 then Ok rc
                 else Raise (CalledProcessError rc (CmdText cmd))
             end)
        end
    end.
Proof.
  unfold _run_blocking, subprocess_run_check, blocking_req.
  destruct line_handler as [h|]; cbn zeta.
  - rewrite bind_tell.
    destruct (sys _) as [e|p]; [reflexivity|].
    destruct (read_loop h (output p) (lingering p)) as [t [[]|e]];
      rewrite bind_pair; cbn [trace outcome_of fst snd]; [|reflexivity].
    destruct (returncode p =? 0); cbn; now rewrite ?app_nil_r.
  - rewrite bind_ret_r, bind_tell.
    destruct (sys _) as [e|p]; [reflexivity|].
    rewrite bind_tell.
    destruct (returncode p =? 0); reflexivity.
Qed.

Lemma run_blocking_popen (sys : os) (split_cmd : list str) (cwd : str)
      (line_handler : option handler) (cmd : str) (r : popen_req) :
  In (Popen r) (trace (_run_blocking sys split_cmd cwd line_handler cmd)) ->
  r = blocking_req split_cmd cwd line_handler.
Proof.
  rewrite run_blocking_eq. cbn zeta.
  destruct (sys _) as [e|p]; [cbn; intros [[= <-]|[]]; reflexivity|].
  destruct line_handler as [h|]; cbn.
  - intros [[= <-]|H]; [reflexivity|].
    now apply read_loop_no_popen in H.
  - intros [[= <-]|[[=]|[]]]; reflexivity.
Qed.

Lemma on_error_quiet (cmd : str) (split_cmd : list str) :
  let on_error := tell (Err (py "Command was ") (CmdText cmd)) ;;
                  tell (Err (py "Split command was ") (CmdArgs split_cmd)) in
  (exists t, on_error = (t, Ok tt)) /\
  (forall q, ~ In (Popen q) (trace on_error)).
Proof.
  split; [eexists; reflexivity|].
  intros q [[=]|[[=]|[]]].
Qed.

Lemma started_outcome (sys : os) (split_cmd : list str) (cwd cmd : str)
      (line_handler : option handler) :
  outcome_of (started sys split_cmd cwd cmd line_handler true)
  = outcome_of (_run_blocking sys split_cmd cwd line_handler cmd).
Proof. apply try_except_outcome, on_error_quiet. Qed.

Lemma started_nonblocking (sys : os) (split_cmd : list str) (cwd cmd : str)
      (line_handler : option handler) :
  started sys split_cmd cwd cmd line_handler false = ([], Raise TypeError).
Proof. reflexivity. Qed.


(** The only exception [shlex.split] raises is [ValueError]. *)
Lemma lex_raises_ValueError (input : str) :
  forall st es q tok e,
    Shlex.lex st es q tok input = Raise e -> e = ValueError.
Proof.
  induction input as [|c rest IH]; intros st es q tok e; cbn.
  - destruct st; intros [= <-]; reflexivity.
  - destruct st.
    + destruct (Shlex.whitespace c).
      * destruct tok, q; try apply IH;
          destruct (Shlex.lex Shlex.InSpace Shlex.InSpace false [] rest)
            eqn:E; intros [= <-]; eapply IH; eassumption.
      * destruct (Shlex.escape c); [apply IH|].
        destruct (Shlex.quotes c); apply IH.
    + destruct (N.eqb c q0); [apply IH|].
      destruct (Shlex.escape c && Shlex.escapedquotes q0); apply IH.
    + apply IH.
    + destruct (Shlex.whitespace c).
      * destruct tok, q; try apply IH;
          destruct (Shlex.lex Shlex.InSpace Shlex.InSpace false [] rest)
            eqn:E; intros [= <-]; eapply IH; eassumption.
      * destruct (Shlex.quotes c); [apply IH|].
        destruct (Shlex.escape c); apply IH.
Qed.

Lemma shlex_raises_ValueError (s : str) (e : exn) :
  Shlex.split s = Raise e -> e = ValueError.
Proof. apply lex_raises_ValueError. Qed.

(** C2. On the non-blocking path [run_cmd] never returns and never starts
    a child: it hands three arguments to [_run_nonblocking], which takes
    two, so the call raises [TypeError] (or the command does not even split
    and [ValueError] is raised before that). *)
Theorem run_cmd_nonblocking_raises (sys : os) (getcwd cmd : str)
        (cwd : option str) (silent : bool) (line_handler : option handler) :
  run_cmd (child [] 0) (py "/work") (py "echo hi") None true None false
  = ([], Raise TypeError) /\
  (outcome_of (run_cmd sys getcwd cmd cwd silent line_handler false)
   = Raise TypeError \/
   outcome_of (run_cmd sys getcwd cmd cwd silent line_handler false)
   = Raise ValueError) /\
  (forall r,
      ~ In (Popen r)
        (trace (run_cmd sys getcwd cmd cwd silent line_handler false))).
Proof.
  split; [reflexivity|].
  rewrite run_cmd_unfold.
  destruct (Shlex.split (escape_backslashes cmd)) as [split_cmd|e] eqn:Es.
  - cbn zeta. rewrite started_nonblocking. cbn [outcome_of trace fst snd].
    split; [now left|].
    intros r. rewrite app_nil_r. intros H.
    apply header_prints in H as [s H]. discriminate.
  - split; [|intros r []].
    right. cbn. f_equal. eapply shlex_raises_ValueError; eassumption.
Qed.


Lemma handled_prints (t : list event) :
  (forall e, In e t -> exists s, e = Print s) -> handled t = [].
Proof.
  induction t as [|e t IH]; intros Hp; [reflexivity|].
  destruct (Hp e (or_introl eq_refl)) as [s ->]. cbn.
  apply IH. intros e' He'. apply Hp. now right.
Qed.







(** C9. Whenever [run_cmd] with [blocking = True] returns, it returns 0,
    with or without a callback. *)
Theorem run_cmd_blocking_returns_zero (sys : os) (getcwd cmd : str)
        (cwd : option str) (silent : bool) (line_handler : option handler)
        (rc : Z) :
  outcome_of (run_cmd sys getcwd cmd cwd silent line_handler true) = Ok rc ->
  rc = 0.
Proof.
  rewrite run_cmd_unfold.
  destruct (Shlex.split (escape_backslashes cmd)) as [split_cmd|e];
    [|discriminate].
  cbn zeta. rewrite started_outcome.
  rewrite run_blocking_eq. cbn zeta.
  destruct (sys _) as [e|p]; [discriminate|].
  destruct line_handler as [h|]; cbn [outcome_of snd].
  - destruct (outcome_of (read_loop h (output p) (lingering p)));
      [|discriminate].
    destruct (Z.eqb_spec (returncode p) 0) as [E|_]; [|discriminate].
    intros [= <-]. exact E.
  - destruct (Z.eqb_spec (returncode p) 0) as [E|_]; [|discriminate].
    intros [= <-]. exact E.
Qed.

Lemma run_cmd_blocking_returns_zero_witness :
  outcome_of build_run = Ok 0 /\ 0 = 0.
Proof.
  split; [reflexivity|].
  apply (run_cmd_blocking_returns_zero
           (child build_output 0) (py "/work") (py "make all") None false
           (Some quiet) 0).
  reflexivity.
Defined.

(** C8. Whatever [run_cmd] starts, it starts with the argument list
    obtained by doubling every backslash of the command string and splitting
    the result the way a shell splits words; and on the blocking path it
    does start that list whenever the command splits. *)
Theorem run_cmd_executes_split_command (sys : os) (getcwd cmd : str)
        (cwd : option str) (silent : bool) (line_handler : option handler)
        (blocking : bool) :
  escape_backslashes cmd
  = flat_map (fun c => if (c =? 92)%N then [92; 92]%N else [c]) cmd /\
  (forall r,
      In (Popen r)
         (trace (run_cmd sys getcwd cmd cwd silent line_handler blocking)) ->
      Shlex.split (escape_backslashes cmd) = Ok (args r)) /\
  (forall split_cmd,
      blocking = true ->
      Shlex.split (escape_backslashes cmd) = Ok split_cmd ->
      In (Popen (blocking_req split_cmd (resolve_cwd getcwd cwd) line_handler))
         (trace (run_cmd sys getcwd cmd cwd silent line_handler blocking))).
Proof.
  split; [reflexivity|].
  rewrite run_cmd_unfold.
  destruct (Shlex.split (escape_backslashes cmd)) as [toks|e];
    [|split; [intros r [] | discriminate]].
  cbn zeta.
  set (d := resolve_cwd getcwd cwd).
  set (m := started sys toks d cmd line_handler blocking).
  assert (Hin : forall r, In (Popen r) (trace m) -> args r = toks).
  { intros r H. subst m. unfold started in H.
    apply try_except_trace in H; [|apply on_error_quiet].
    destruct blocking; [|destruct H].
    apply run_blocking_popen in H. now subst r. }
  assert (Hall : forall r t,
             In (Popen r)
                (trace (_print_cmd_header cmd d silent blocking) ++ trace m ++ t) ->
             (forall e, In e t -> exists s, e = Print s) ->
             args r = toks).
  { intros r t H Ht. rewrite !in_app_iff in H.
    destruct H as [H|[H|H]].
    - apply header_prints in H as [s H]. discriminate.
    - now apply Hin.
    - apply Ht in H as [s H]. discriminate. }
  split.
  - intros r H. f_equal. symmetry.
    destruct (outcome_of m); cbn [trace fst] in H.
    + apply (Hall r _ H). intros ev. apply footer_prints.
    + apply (Hall r []); [now rewrite app_nil_r | intros ev []].
  - intros split_cmd -> [= <-].
    assert (Hp : In (Popen (blocking_req toks d line_handler)) (trace m)).
    { subst m. unfold started.
      assert (Hb : In (Popen (blocking_req toks d line_handler))
                      (trace (_run_blocking sys toks d line_handler cmd))).
      { rewrite run_blocking_eq. cbn zeta.
        destruct (sys _); [now left|].
        destruct line_handler; now left. }
      revert Hb. generalize (_run_blocking sys toks d line_handler cmd).
      intros [t [a|e]]; cbn; [tauto|].
      destruct (is_OSError e); cbn; [|tauto].
      rewrite in_app_iff. tauto. }
    destruct (outcome_of m); cbn [trace fst]; rewrite !in_app_iff; tauto.
Qed.

Lemma run_cmd_executes_split_command_witness :
  In (Popen (blocking_req [py "ls"; py "missing"] (py "/work") None))
     (trace (failing_run None)).
Proof.
  destruct (run_cmd_executes_split_command
              (child [] 1) (py "/work") failing_cmd None true None true)
    as (_ & _ & H).
  exact (H [py "ls"; py "missing"] eq_refl eq_refl).
Defined.

(* ===================================================================== *)
(** ** Further properties of the version classifier                       *)
(* ===================================================================== *)

Lemma split_aux_app (sep : N) (a b' cur : str) :
  split_aux sep cur (a ++ sep :: b')
  = split_aux sep cur a ++ split_aux sep [] b'.
Proof.
  revert cur. induction a as [|c a IH]; intros cur; cbn.
  - now rewrite N.eqb_refl.
  - destruct (N.eqb c sep); [now rewrite IH | apply IH].
Qed.

Lemma split_aux_sep_length (sep : N) (s cur : str) :
  In sep s -> (2 <= List.length (split_aux sep cur s))%nat.
Proof.
  revert cur. induction s as [|c s IH]; intros cur; cbn; [tauto|].
  intros [->|Hin].
  - rewrite N.eqb_refl. cbn.
    assert (H := split_nonempty sep s []).
    destruct (split_aux sep [] s); [congruence | cbn; lia].
  - destruct (N.eqb c sep); cbn.
    + assert (H := split_nonempty sep s []).
      destruct (split_aux sep [] s); [congruence | cbn; lia].
    + now apply IH.
Qed.

Lemma check_vitis_two_parts (version p0 p1 : str) (more : list str) :
  split 46 version = p0 :: p1 :: more ->
  check_vitis version
  = match int p0 with
    | Raise e => Raise e
    | Ok year =>
        if year <=? 2019
        then match int p1 with
             | Raise e => Raise e
             | Ok minor => if minor <=? 1 then Ok 0 else Ok 1
             end
        else Ok 1
    end.
Proof. intros Hs. unfold check_vitis, index. rewrite Hs. reflexivity. Qed.

(** X1. Whatever follows the second component is ignored: when the version
    string contains a dot, appending a dot and any further text leaves the
    result of the classifier unchanged, exceptions included. *)
Theorem check_vitis_ignores_further_components (version suffix : str) :
  In 46%N version ->
  check_vitis (version ++ 46%N :: suffix) = check_vitis version.
Proof.
  intros Hdot.
  assert (Hlen := split_aux_sep_length 46 version [] Hdot).
  destruct (split_aux 46 [] version) as [|p0 [|p1 more]] eqn:Es;
    cbn in Hlen; try lia.
  rewrite (check_vitis_two_parts version p0 p1 more Es).
  apply (check_vitis_two_parts _ p0 p1 (more ++ split_aux 46 [] suffix)).
  unfold split. rewrite split_aux_app, Es. reflexivity.
Qed.

Lemma dotted_2019_1 : In 46%N (py "2019.1").
Proof. cbn. tauto. Qed.

Lemma check_vitis_ignores_further_components_witness :
  check_vitis (py "2019.1" ++ 46%N :: py "1_AR73068") = check_vitis (py "2019.1").
Proof.
  exact (check_vitis_ignores_further_components
           (py "2019.1") (py "1_AR73068") dotted_2019_1).
Defined.

Lemma no_dot_split (version : str) :
  ~ In 46%N version -> split 46 version = [version].
Proof.
  intros Hno. unfold split. rewrite split_aux_no_sep; [reflexivity|].
  intros c Hc ->. contradiction.
Qed.

(** X2. The classifier has four possible outcomes: 0, 1, [ValueError] and
    [IndexError]; and it raises [IndexError] exactly when the version
    string has no dot and is, as a whole, an integer not above 2019. *)
Theorem check_vitis_outcomes (version : str) :
  (check_vitis version = Ok 0 \/ check_vitis version = Ok 1 \/
   check_vitis version = Raise ValueError \/
   check_vitis version = Raise IndexError) /\
  (check_vitis version = Raise IndexError <->
   ~ In 46%N version /\
   exists year, int_opt version = Some year /\ year <= 2019).
Proof.
  destruct (in_dec N.eq_dec 46%N version) as [Hdot|Hno].
  - assert (Hlen := split_aux_sep_length 46 version [] Hdot).
    destruct (split_aux 46 [] version) as [|p0 [|p1 more]] eqn:Es;
      cbn in Hlen; try lia.
    rewrite (check_vitis_two_parts version p0 p1 more Es). unfold int.
    assert (Hcases :
      forall r : result Z,
        r = match int_opt p0 with
            | Some year =>
                if year <=? 2019
                then match int_opt p1 with
                     | Some minor => if minor <=? 1 then Ok 0 else Ok 1
                     | None => Raise ValueError
                     end
                else Ok 1
            | None => Raise ValueError
            end ->
        (r = Ok 0 \/ r = Ok 1 \/ r = Raise ValueError \/ r = Raise IndexError)
        /\ r <> Raise IndexError).
    { intros r ->.
      destruct (int_opt p0) as [year|]; [|split; [tauto | discriminate]].
      destruct (year <=? 2019); [|split; [tauto | discriminate]].
      destruct (int_opt p1) as [minor|]; [|split; [tauto | discriminate]].
      destruct (minor <=? 1); split; (tauto || discriminate). }
    match goal with
    | |- (?r = _ \/ _) /\ _ =>
        destruct (Hcases r) as [Hc Hne];
        [destruct (int_opt p0) as [year|]; [|reflexivity];
         destruct (year <=? 2019); [|reflexivity];
         destruct (int_opt p1) as [minor|]; reflexivity |]
    end.
    split; [exact Hc|]. split; [intros H; now elim Hne | tauto].
  - unfold check_vitis, index, int. rewrite (no_dot_split version Hno). cbn.
    destruct (int_opt version) as [year|].
    + destruct (Z.leb_spec year 2019).
      * split; [tauto|]. split; [|reflexivity].
        intros _. split; [exact Hno|]. now exists year.
      * split; [tauto|]. split; [discriminate|].
        intros [_ [y [[= <-] Hy]]]. lia.
    + split; [tauto|]. split; [discriminate|].
      intros [_ [y [[=] _]]].
Qed.

(* ===================================================================== *)
(** ** Further properties of the yes/no prompt                            *)
(* ===================================================================== *)

(** One round of the loop, by what the line means. *)
Lemma ask_by_answer (question : str) (default : option str)
      (line : str) (stdin : list str) :
  valid_default default ->
  let prompt := prompt_of default in
  ask question prompt default (line :: stdin)
  = match answer_of default line with
    | Some answer => ([Write (question ++ py " " ++ prompt)], Ok answer)
    | None =>
        (asked_again question default
           ++ trace (ask question prompt default stdin),
         outcome_of (ask question prompt default stdin))
    end.
Proof.
  intros Hv prompt. subst prompt. rewrite ask_step, bind_tell.
  unfold answer_of, asked_again.
  set (again := ask question (prompt_of default) default stdin).
  assert (Hrest :
    match dict_get valid (lower line) with
    | Some answer => ret answer
    | None => tell (Write complaint) ;; again
    end
    = match dict_get valid (lower line) with
      | Some answer => ([], Ok answer)
      | None => (Write complaint :: trace again, outcome_of again)
      end).
  { destruct (dict_get valid (lower line)); [reflexivity | apply bind_tell]. }
  destruct Hv as [->|[->| ->]].
  - cbv beta iota. rewrite Hrest.
    now destruct (dict_get valid (lower line)).
  - destruct (lower line) as [|c l] eqn:El; [reflexivity|].
    rewrite Hrest. now destruct (dict_get valid (c :: l)).
  - destruct (lower line) as [|c l] eqn:El; [reflexivity|].
    rewrite Hrest. now destruct (dict_get valid (c :: l)).
Qed.

Lemma ask_skips (question : str) (default : option str)
      (junk stdin : list str) :
  valid_default default ->
  Forall (fun l => answer_of default l = None) junk ->
  ask question (prompt_of default) default (junk ++ stdin)
  = (flat_map (fun _ => asked_again question default) junk
       ++ trace (ask question (prompt_of default) default stdin),
     outcome_of (ask question (prompt_of default) default stdin)).
Proof.
  intros Hv Hjunk. induction Hjunk as [|l junk Hl _ IH]; cbn [app flat_map].
  - now destruct (ask question (prompt_of default) default stdin).
  - rewrite (ask_by_answer _ _ _ _ Hv). cbn zeta. rewrite Hl, IH.
    cbn [trace outcome_of fst snd]. now rewrite app_assoc.
Qed.

(** X3. With a valid default, lines that are not understood are consumed
    one by one, each answered by the prompt and the complaint, until a line
    is understood: that line decides the answer, the prompt has then been
    written once per line read, and the input after it plays no part. *)
Theorem query_yes_no_skips_unrecognized (question : str)
        (default : option str) (junk : list str) (line : str)
        (rest : list str) (answer : bool) :
  valid_default default ->
  Forall (fun l => answer_of default l = None) junk ->
  answer_of default line = Some answer ->
  query_yes_no question default (junk ++ line :: rest)
  = (flat_map (fun _ => asked_again question default) junk
       ++ [Write (question ++ py " " ++ prompt_of default)],
     Ok answer).
Proof.
  intros Hv Hjunk Hline.
  rewrite (query_yes_no_ask _ _ _ Hv), (ask_skips _ _ _ _ Hv Hjunk).
  rewrite (ask_by_answer _ _ _ _ Hv). cbn zeta. now rewrite Hline.
Qed.

Lemma query_yes_no_skips_unrecognized_witness :
  query_yes_no (py "Deploy?") (Some (py "no"))
               ([py "maybe"; py " y"] ++ py "Ye" :: [py "n"])
  = (flat_map (fun _ => asked_again (py "Deploy?") (Some (py "no")))
              [py "maybe"; py " y"]
       ++ [Write (py "Deploy?" ++ py " " ++ prompt_of (Some (py "no")))],
     Ok true).
Proof.
  apply query_yes_no_skips_unrecognized.
  - right; right; reflexivity.
  - repeat constructor.
  - reflexivity.
Defined.

(** X4. With a valid default, when no line of the input is understood the
    prompt raises [EOFError], after asking once per line and once more. *)
Theorem query_yes_no_input_exhausted (question : str)
        (default : option str) (stdin : list str) :
  valid_default default ->
  Forall (fun l => answer_of default l = None) stdin ->
  query_yes_no question default stdin
  = (flat_map (fun _ => asked_again question default) stdin
       ++ [Write (question ++ py " " ++ prompt_of default)],
     Raise EOFError).
Proof.
  intros Hv Hall.
  rewrite (query_yes_no_ask _ _ _ Hv).
  rewrite <- (app_nil_r stdin) at 1.
  rewrite (ask_skips _ _ _ _ Hv Hall). reflexivity.
Qed.

Lemma query_yes_no_input_exhausted_witness :
  query_yes_no (py "Deploy?") None [[]; py "yes please"]
  = (flat_map (fun _ => asked_again (py "Deploy?") None) [[]; py "yes please"]
       ++ [Write (py "Deploy?" ++ py " " ++ prompt_of None)],
     Raise EOFError).
Proof.
  apply query_yes_no_input_exhausted.
  - left; reflexivity.
  - repeat constructor.
Defined.

Lemma lower_idempotent (s : str) : lower (lower s) = lower s.
Proof.
  unfold lower. rewrite map_map. apply map_ext. intros c.
  unfold lower_char.
  destruct ((65 <=? c) && (c <=? 90))%N eqn:E; [|now rewrite E].
  apply andb_true_iff in E as [E1 E2].
  apply N.leb_le in E1, E2.
  destruct ((65 <=? c + 32) && (c + 32 <=? 90))%N eqn:E'; [|reflexivity].
  apply andb_true_iff in E' as [_ E'].
  apply N.leb_le in E'. lia.
Qed.

(** X5. The prompt does not look at the case of its input: a run gives the
    same answer and writes the same texts when every input line is replaced
    by its lower-case form. *)
Theorem query_yes_no_case_insensitive (question : str)
        (default : option str) (stdin : list str) :
  query_yes_no question default (List.map lower stdin)
  = query_yes_no question default stdin.
Proof.
  assert (Hask : forall prompt,
             ask question prompt default (List.map lower stdin)
             = ask question prompt default stdin).
  { intros prompt. induction stdin as [|line stdin IH]; [reflexivity|].
    cbn [List.map]. rewrite !ask_step, lower_idempotent, IH. reflexivity. }
  unfold query_yes_no.
  destruct default as [d|]; [|apply Hask].
  destruct (str_eqb d (py "yes")); [apply Hask|].
  destruct (str_eqb d (py "no")); [apply Hask | reflexivity].
Qed.

(** X6. The prompt ends in one of four ways: it answers true or false, or
    raises [ValueError] or [EOFError].  It raises [ValueError] exactly when
    the default is not valid; the lookup of the default among the tokens
    never fails. *)
Theorem query_yes_no_outcomes (question : str) (default : option str)
        (stdin : list str) :
  let r := outcome_of (query_yes_no question default stdin) in
  (r = Ok true \/ r = Ok false \/ r = Raise ValueError \/ r = Raise EOFError)
  /\ (r = Raise ValueError <-> ~ valid_default default).
Proof.
  cbv zeta.
  assert (Hv : valid_default default ->
               let r := outcome_of (ask question (prompt_of default)
                                        default stdin) in
               (r = Ok true \/ r = Ok false \/ r = Raise EOFError)).
  { intros Hv. induction stdin as [|line stdin IH]; cbv zeta.
    - right; right. reflexivity.
    - rewrite (ask_by_answer _ _ _ _ Hv). cbv zeta.
      destruct (answer_of default line) as [[|]|]; cbn; auto. }
  destruct default as [d|].
  - destruct (str_eqb d (py "yes")) eqn:Ey.
    { apply str_eqb_eq in Ey. subst d.
      assert (Hvd : valid_default (Some (py "yes")))
        by (right; left; reflexivity).
      rewrite (query_yes_no_ask _ _ _ Hvd).
      destruct (Hv Hvd) as [H|[H|H]]; rewrite H;
        (split; [tauto | split; [discriminate | tauto]]). }
    destruct (str_eqb d (py "no")) eqn:En.
    { apply str_eqb_eq in En. subst d.
      assert (Hvd : valid_default (Some (py "no")))
        by (right; right; reflexivity).
      rewrite (query_yes_no_ask _ _ _ Hvd).
      destruct (Hv Hvd) as [H|[H|H]]; rewrite H;
        (split; [tauto | split; [discriminate | tauto]]). }
    unfold query_yes_no. rewrite Ey, En. cbn.
    split; [tauto|]. split; [|reflexivity].
    intros _ [H|[H|H]]; try discriminate; injection H as ->;
      [now rewrite (proj2 (str_eqb_eq _ _) eq_refl) in Ey
      | now rewrite (proj2 (str_eqb_eq _ _) eq_refl) in En].
  - assert (Hvd : valid_default None) by (left; reflexivity).
    rewrite (query_yes_no_ask _ _ _ Hvd).
    destruct (Hv Hvd) as [H|[H|H]]; rewrite H;
      (split; [tauto | split; [discriminate | tauto]]).
Qed.

(* ===================================================================== *)
(** ** Further properties of the repository check                         *)
(* ===================================================================== *)

(** X7. The debug override only matters for a repository with pending
    changes: when the status query prints nothing the result is clean, with
    nothing printed, whatever the override; when it prints something that
    is well-formed UTF-8 (decoding to [text]) and the override is defined,
    the three-line warning is printed and the clean flag is the value of the
    override, so an override set to [False] still reports the repository as
    not clean.  Output that is not well-formed UTF-8 is not covered here:
    there the function raises before the override is looked at. *)
Theorem repo_clean_override (shell_stdout : str -> bytes) (flag : bool) :
  (shell_stdout status_cmd = [] ->
   forall override, repo_clean shell_stdout override = ([], Ok (true, []))) /\
  (forall text,
      shell_stdout status_cmd <> [] ->
      decode_utf8 (shell_stdout status_cmd) = Some text ->
      repo_clean shell_stdout (Some flag)
      = ([Print stars;
          Print (py "**** WARNING: Bypassing git clean check ****");
          Print stars],
         Ok (flag, status_cmd ++ [10%N] ++ text))).
Proof.
  unfold repo_clean. split.
  - intros -> override. reflexivity.
  - intros text Hne Hdec.
    destruct (shell_stdout status_cmd) as [|c out]; [now elim Hne|].
    unfold decode. rewrite Hdec. reflexivity.
Qed.

Lemma repo_clean_override_witness :
  repo_clean (fun _ => []) (Some false) = ([], Ok (true, [])) /\
  outcome_of (repo_clean (fun _ => b "?? new.v") (Some false))
  = Ok (false, status_cmd ++ [10%N] ++ py "?? new.v").
Proof.
  split.
  - destruct (repo_clean_override (fun _ => []) false) as [H _].
    exact (H eq_refl (Some false)).
  - destruct (repo_clean_override (fun _ => b "?? new.v") false) as [_ H].
    refine (f_equal snd (H (py "?? new.v") _ eq_refl)). discriminate.
Defined.

(** X8. [repo_clean] raises exactly when the status query prints bytes
    that are not well-formed UTF-8; the exception is then
    [UnicodeDecodeError], nothing has been printed, and the debug override
    does not prevent it. *)
Theorem repo_clean_raises (shell_stdout : str -> bytes)
        (override : option bool) :
  (decode_utf8 (shell_stdout status_cmd) = None ->
   repo_clean shell_stdout override = ([], Raise UnicodeDecodeError)) /\
  (forall e,
      outcome_of (repo_clean shell_stdout override) = Raise e ->
      decode_utf8 (shell_stdout status_cmd) = None).
Proof.
  unfold repo_clean.
  destruct (shell_stdout status_cmd) as [|c out]; split.
  - discriminate.
  - discriminate.
  - intros Hdec. unfold decode. rewrite Hdec. reflexivity.
  - intros e. unfold decode.
    destruct (decode_utf8 (c :: out)); [|reflexivity].
    rewrite bind_lift_Ok. destruct override; discriminate.
Qed.

Lemma repo_clean_raises_witness :
  repo_clean (fun _ => [xff]) (Some true) = ([], Raise UnicodeDecodeError).
Proof.
  apply (repo_clean_raises (fun _ => [xff]) (Some true)). reflexivity.
Defined.

(* ===================================================================== *)
(** ** Further properties of the command runner                           *)
(* ===================================================================== *)

(** The loop over the pipe is the fold over the lines of the output,
    however long the child lingers. *)
Lemma read_loop_feed (h : handler) (out : bytes) (n : nat) :
  read_loop h out n = feed h (lines out).
Proof.
  funelim (read_loop h out n).
  - rewrite (lines_readline _ _ _ _ Hrd). cbn [feed].
    destruct (decode (c :: l)) as [t|e]; [|reflexivity].
    rewrite !bind_lift_Ok, call_handler_eq, !bind_pair.
    destruct (line_handler (strip t)); [reflexivity|].
    now rewrite (H t tt).
  - destruct (readline_nil _ _ Hrd) as [-> _]. reflexivity.
  - destruct (readline_nil _ _ Hrd) as [E1 E2].
    rewrite H, E1, E2. reflexivity.
Qed.

Lemma feed_cons (h : handler) (l : bytes) (ls : list bytes) :
  feed h (l :: ls)
  = match decode_utf8 l with
    | None => ([], Raise UnicodeDecodeError)
    | Some t =>
        match h (strip t) with
        | Some e => ([LineHandler (strip t)], Raise e)
        | None => (LineHandler (strip t) :: trace (feed h ls),
                   outcome_of (feed h ls))
        end
    end.
Proof.
  cbn [feed]. unfold decode.
  destruct (decode_utf8 l) as [t|]; [|reflexivity].
  rewrite bind_lift_Ok, call_handler_eq, bind_pair.
  destruct (h (strip t)); reflexivity.
Qed.

(** The loop only calls the callback, and only on stripped lines. *)
Lemma feed_events (h : handler) (ls : list bytes) (e : event) :
  In e (trace (feed h ls)) -> exists t, e = LineHandler (strip t).
Proof.
  induction ls as [|l ls IH]; [intros []|].
  rewrite feed_cons.
  destruct (decode_utf8 l) as [t|]; [|intros []].
  destruct (h (strip t)); cbn.
  - intros [<-|[]]. now exists t.
  - intros [<-|H]; [now exists t | auto].
Qed.



Lemma printed_app (t u : list event) :
  printed (t ++ u) = printed t ++ printed u.
Proof.
  induction t as [|e t IH]; cbn; [reflexivity|].
  destruct e; cbn; now rewrite IH.
Qed.


(** [_run_blocking] with the loop told over the lines. *)
Lemma run_blocking_feed (sys : os) (split_cmd : list str) (cwd : str)
      (line_handler : option handler) (cmd : str) :
  let req := blocking_req split_cmd cwd line_handler in
  _run_blocking sys split_cmd cwd line_handler cmd
  = match sys req with
    | Fails e => ([Popen req], Raise e)
    | Starts p =>
        let rc := returncode p in
        match line_handler with
        | None =>
            ([Popen req; Streamed (output p)],
             if rc =? 0 then Ok rc
             else Raise (CalledProcessError rc (CmdArgs split_cmd)))
        | Some h =>
            let loop := feed h (lines (output p)) in
            (Popen req :: trace loop,
             match outcome_of loop with
             | Raise e => Raise e
             | Ok _ =>
                 if rc =? 0 then Ok rc
                 else Raise (CalledProcessError rc (CmdText cmd))
             end)
        end
    end.
Proof.
  rewrite run_blocking_eq. cbn zeta.
  destruct (sys _) as [e|p]; [reflexivity|].
  destruct line_handler as [h|]; [|reflexivity].
  now rewrite read_loop_feed.
Qed.

(** A blocking [run_cmd] in terms of [_run_blocking]. *)
Lemma run_cmd_blocking_eq (sys : os) (getcwd cmd : str) (cwd : option str)
      (silent : bool) (line_handler : option handler)
      (split_cmd : list str) :
  Shlex.split (escape_backslashes cmd) = Ok split_cmd ->
  let d := resolve_cwd getcwd cwd in
  let head := trace (_print_cmd_header cmd d silent true) in
  let body := _run_blocking sys split_cmd d line_handler cmd in
  run_cmd sys getcwd cmd cwd silent line_handler true
  = match outcome_of body with
    | Ok rc => (head ++ trace body ++ trace (_print_cmd_footer silent), Ok rc)
    | Raise e =>
        (head ++ trace body
           ++ (if is_OSError e then launch_log cmd split_cmd else []),
         Raise e)
    end.
Proof.
  intros Hs d head body. subst head body.
  rewrite run_cmd_unfold, Hs. cbn zeta. fold d. unfold started.
  destruct (_run_blocking sys split_cmd d line_handler cmd) as [t [rc|e]];
    cbn [try_except_OSError outcome_of trace fst snd]; [reflexivity|].
  destruct (is_OSError e); cbn [outcome_of trace fst snd];
    [reflexivity | now rewrite app_nil_r].
Qed.

(** X9. A command that cannot be split into words makes [run_cmd] raise
    [ValueError] before anything is printed or started, in blocking and in
    non-blocking mode alike. *)
Theorem run_cmd_untokenizable (sys : os) (getcwd cmd : str)
        (cwd : option str) (silent : bool) (line_handler : option handler)
        (blocking : bool) (e : exn) :
  Shlex.split (escape_backslashes cmd) = Raise e ->
  run_cmd sys getcwd cmd cwd silent line_handler blocking
  = ([], Raise ValueError).
Proof.
  intros Hs. rewrite run_cmd_unfold, Hs.
  now rewrite (shlex_raises_ValueError _ _ Hs).
Qed.

Lemma run_cmd_untokenizable_witness :
  run_cmd (child [] 0) (py "/work") (py "echo 'open") None false None true
  = ([], Raise ValueError).
Proof.
  apply (run_cmd_untokenizable _ _ _ _ _ _ _ ValueError). reflexivity.
Defined.

(** X10. When the child cannot be started, a blocking [run_cmd] raises the
    very exception the start raised, after the header and without the
    footer; for [OSError] and [FileNotFoundError] it first logs the command
    and the split command, for any other exception it logs nothing. *)
Theorem run_cmd_launch_failure (sys : os) (getcwd cmd : str)
        (cwd : option str) (silent : bool) (line_handler : option handler)
        (split_cmd : list str) (e : exn) :
  Shlex.split (escape_backslashes cmd) = Ok split_cmd ->
  sys (blocking_req split_cmd (resolve_cwd getcwd cwd) line_handler)
  = Fails e ->
  run_cmd sys getcwd cmd cwd silent line_handler true
  = (trace (_print_cmd_header cmd (resolve_cwd getcwd cwd) silent true)
       ++ [Popen (blocking_req split_cmd (resolve_cwd getcwd cwd) line_handler)]
       ++ (if is_OSError e then launch_log cmd split_cmd else []),
     Raise e).
Proof.
  intros Hs Hsys.
  rewrite (run_cmd_blocking_eq _ _ _ _ _ _ _ Hs). cbn zeta.
  rewrite run_blocking_feed. cbn zeta. rewrite Hsys. reflexivity.
Qed.

Lemma run_cmd_launch_failure_witness :
  run_cmd missing_tool (py "/work") (py "vivado -version") None true None true
  = ([Popen (blocking_req [py "vivado"; py "-version"] (py "/work") None);
      Err (py "Command was ") (CmdText (py "vivado -version"));
      Err (py "Split command was ") (CmdArgs [py "vivado"; py "-version"])],
     Raise FileNotFoundError).
Proof.
  exact (run_cmd_launch_failure
           missing_tool (py "/work") (py "vivado -version") None true None
           [py "vivado"; py "-version"] FileNotFoundError eq_refl eq_refl).
Defined.




Lemma shown_app (t u : list event) : shown (t ++ u) = shown t ++ shown u.
Proof.
  induction t as [|e t IH]; cbn; [reflexivity|].
  destruct e; cbn; now rewrite IH.
Qed.

Lemma run_blocking_shown (sys : os) (split_cmd : list str) (cwd : str)
      (line_handler : option handler) (cmd : str) :
  shown (trace (_run_blocking sys split_cmd cwd line_handler cmd)) = [].
Proof.
  rewrite run_blocking_feed. cbn zeta.
  destruct (sys _) as [e|p]; [reflexivity|].
  destruct line_handler as [h|]; [|reflexivity].
  cbn [trace fst shown].
  assert (H : forall t,
             (forall e, In e t -> exists x, e = LineHandler (strip x)) ->
             shown t = []).
  { induction t as [|e t IH]; intros Ht; [reflexivity|].
    destruct (Ht e (or_introl eq_refl)) as [x ->]. cbn.
    apply IH. intros e' He'. apply Ht. now right. }
  apply H. intros e. apply feed_events.
Qed.

(** X11. What a blocking [run_cmd] whose command splits puts on the
    console through [print] and [err], in order: the five header lines (an
    empty line, the bar, the title, the command text, the directory) unless
    it is silent; then, when it returns, the bar once more unless it is
    silent; when it raises [OSError] or [FileNotFoundError], the two [err]
    lines with the command and the split command, silent or not; when it
    raises anything else, nothing more. *)
Theorem run_cmd_header_and_footer (sys : os) (getcwd cmd : str)
        (cwd : option str) (silent : bool) (line_handler : option handler)
        (split_cmd : list str) :
  Shlex.split (escape_backslashes cmd) = Ok split_cmd ->
  let m := run_cmd sys getcwd cmd cwd silent line_handler true in
  shown (trace m)
  = (if silent then []
     else List.map Print (header_lines cmd (resolve_cwd getcwd cwd)))
    ++ match outcome_of m with
       | Ok _ => if silent then [] else [Print bar]
       | Raise e => if is_OSError e then launch_log cmd split_cmd else []
       end.
Proof.
  intros Hs m. subst m.
  rewrite (run_cmd_blocking_eq _ _ _ _ _ _ _ Hs). cbn zeta.
  set (d := resolve_cwd getcwd cwd).
  assert (Hb := run_blocking_shown sys split_cmd d line_handler cmd).
  destruct (outcome_of (_run_blocking sys split_cmd d line_handler cmd))
    as [rc|e]; cbn [trace outcome_of fst snd];
    rewrite !shown_app, Hb; cbn [app].
  - now destruct silent.
  - destruct silent; now destruct (is_OSError e).
Qed.

Lemma run_cmd_header_and_footer_witness :
  shown (trace (run_cmd (child [] 0) (py "/work") (py "make all")
                        (Some []) false None true))
  = List.map Print [[]; bar; py "Running command:"; py "make all";
                    py "From directory /work"; bar]
  /\
  shown (trace (run_cmd (child [] 2) (py "/work") (py "make all")
                        None false None true))
  = List.map Print [[]; bar; py "Running command:"; py "make all";
                    py "From directory /work"]
  /\
  shown (trace (run_cmd missing_tool (py "/work") (py "make all")
                        None true None true))
  = [Err (py "Command was ") (CmdText (py "make all"));
     Err (py "Split command was ") (CmdArgs [py "make"; py "all"])].
Proof.
  split; [|split].
  - exact (run_cmd_header_and_footer
             (child [] 0) (py "/work") (py "make all") (Some []) false None
             [py "make"; py "all"] eq_refl).
  - exact (run_cmd_header_and_footer
             (child [] 2) (py "/work") (py "make all") None false None
             [py "make"; py "all"] eq_refl).
  - exact (run_cmd_header_and_footer
             missing_tool (py "/work") (py "make all") None true None
             [py "make"; py "all"] eq_refl).
Defined.


(** X13. How long the child lingers after closing its output (how often
    [poll()] still answers [None] at the end of the output) changes nothing:
    [run_cmd] returns the same result and leaves the same trace. *)
Theorem run_cmd_ignores_lingering (k : nat) (sys : os) (getcwd cmd : str)
        (cwd : option str) (silent : bool) (line_handler : option handler)
        (blocking : bool) :
  run_cmd (with_lingering k sys) getcwd cmd cwd silent line_handler blocking
  = run_cmd sys getcwd cmd cwd silent line_handler blocking.
Proof.
  rewrite !run_cmd_unfold.
  destruct (Shlex.split (escape_backslashes cmd)) as [split_cmd|e];
    [|reflexivity].
  cbn zeta.
  assert (Hst : started (with_lingering k sys) split_cmd
                        (resolve_cwd getcwd cwd) cmd line_handler blocking
                = started sys split_cmd (resolve_cwd getcwd cwd) cmd
                          line_handler blocking).
  { destruct blocking; [|reflexivity].
    unfold started. f_equal.
    rewrite !run_blocking_feed. cbn zeta. unfold with_lingering.
    destruct (sys _) as [e|p]; reflexivity. }
  now rewrite Hst.
Qed.

(** X14. Without a callback the output of the child is never decoded: a
    command that starts and exits with code 0 makes a blocking [run_cmd]
    return 0 whatever bytes it writes, the trace being the header, the
    start of the child, its output passed through, and the footer. *)
Theorem run_cmd_streams_without_decoding (sys : os) (getcwd cmd : str)
        (cwd : option str) (silent : bool) (split_cmd : list str)
        (p : process) :
  Shlex.split (escape_backslashes cmd) = Ok split_cmd ->
  sys (blocking_req split_cmd (resolve_cwd getcwd cwd) None) = Starts p ->
  returncode p = 0 ->
  run_cmd sys getcwd cmd cwd silent None true
  = (trace (_print_cmd_header cmd (resolve_cwd getcwd cwd) silent true)
       ++ [Popen (blocking_req split_cmd (resolve_cwd getcwd cwd) None);
           Streamed (output p)]
       ++ trace (_print_cmd_footer silent),
     Ok 0).
Proof.
  intros Hs Hsys Hrc.
  rewrite (run_cmd_blocking_eq _ _ _ _ _ _ _ Hs). cbn zeta.
  rewrite run_blocking_feed. cbn zeta. rewrite Hsys, Hrc. reflexivity.
Qed.

Lemma run_cmd_streams_without_decoding_witness :
  decode_utf8 garbled_output = None /\
  run_cmd (child garbled_output 0) (py "/work") (py "cat blob") None true
          None true
  = ([Popen (blocking_req [py "cat"; py "blob"] (py "/work") None);
      Streamed garbled_output],
     Ok 0).
Proof.
  split; [reflexivity|].
  exact (run_cmd_streams_without_decoding
           (child garbled_output 0) (py "/work") (py "cat blob") None true
           [py "cat"; py "blob"]
           {| output := garbled_output; lingering := 1; returncode := 0 |}
           eq_refl eq_refl eq_refl).
Defined.



Lemma lstrip_fixed (s : str) :
  match s with [] => True | c :: _ => isspace c = false end -> lstrip s = s.
Proof. destruct s as [|c s]; cbn; [reflexivity | now intros ->]. Qed.

Lemma lstrip_head (s : str) :
  match lstrip s with [] => True | c :: _ => isspace c = false end.
Proof.
  induction s as [|c s IH]; cbn; [exact I|].
  destruct (isspace c) eqn:E; [exact IH | exact E].
Qed.

Lemma lstrip_idempotent (s : str) : lstrip (lstrip s) = lstrip s.
Proof. apply lstrip_fixed, lstrip_head. Qed.

Lemma lstrip_suffix (s : str) : exists ws, s = ws ++ lstrip s.
Proof.
  induction s as [|c s [ws IH]]; [now exists []|]. cbn.
  destruct (isspace c).
  - exists (c :: ws). cbn. now rewrite <- IH.
  - now exists [].
Qed.

(** [strip] leaves no whitespace at either end. *)
Lemma strip_trimmed (s : str) : trimmed (strip s).
Proof.
  unfold trimmed, strip, rstrip. split.
  - apply lstrip_fixed.
    assert (Hh := lstrip_head s).
    destruct (lstrip_suffix (rev (lstrip s))) as [ws Hws].
    destruct (lstrip (rev (lstrip s))) as [|c u] using rev_ind;
      [exact I|].
    clear IHu. rewrite rev_app_distr. cbn.
    apply (f_equal (@rev N)) in Hws.
    rewrite rev_involutive, !rev_app_distr in Hws. cbn in Hws.
    rewrite Hws in Hh. exact Hh.
  - now rewrite rev_involutive, lstrip_idempotent.
Qed.

Lemma handled_In (t : list event) (line : str) :
  In line (handled t) -> In (LineHandler line) t.
Proof.
  induction t as [|e t IH]; cbn; [tauto|].
  destruct e; cbn; try (intros H; right; now apply IH).
  intros [->|H]; [now left | right; now apply IH].
Qed.

Lemma run_cmd_handled (sys : os) (getcwd cmd : str) (cwd : option str)
      (silent : bool) (line_handler : option handler) (blocking : bool) :
  handled (trace (run_cmd sys getcwd cmd cwd silent line_handler blocking))
  = match Shlex.split (escape_backslashes cmd), blocking with
    | Ok split_cmd, true =>
        handled (trace (_run_blocking sys split_cmd (resolve_cwd getcwd cwd)
                                      line_handler cmd))
    | _, _ => []
    end.
Proof.
  destruct (Shlex.split (escape_backslashes cmd)) as [split_cmd|e] eqn:Hs;
    [|now rewrite run_cmd_unfold, Hs].
  destruct blocking.
  - rewrite (run_cmd_blocking_eq _ _ _ _ _ _ _ Hs). cbn zeta.
    set (body := _run_blocking _ _ _ _ _).
    destruct (outcome_of body) as [rc|e]; cbn [trace fst];
      rewrite !handled_app, (handled_prints _ (header_prints _ _ _ _)).
    + rewrite (handled_prints _ (footer_prints _)). now rewrite app_nil_r.
    + destruct (is_OSError e); cbn; now rewrite app_nil_r.
  - rewrite run_cmd_unfold, Hs. cbn zeta. rewrite started_nonblocking.
    cbn [trace outcome_of fst snd]. rewrite !handled_app.
    now rewrite (handled_prints _ (header_prints _ _ _ _)).
Qed.

Lemma run_blocking_handled (sys : os) (split_cmd : list str) (cwd : str)
      (line_handler : option handler) (cmd : str) :
  handled (trace (_run_blocking sys split_cmd cwd line_handler cmd))
  = match sys (blocking_req split_cmd cwd line_handler), line_handler with
    | Starts p, Some h => handled (trace (feed h (lines (output p))))
    | _, _ => []
    end.
Proof.
  rewrite run_blocking_feed. cbn zeta.
  destruct (sys _) as [e|p]; [reflexivity|].
  destruct line_handler; reflexivity.
Qed.

(** X16. Whatever the child writes and whatever the callback does, every
    argument the callback is called with is free of whitespace at both
    ends. *)
Theorem run_cmd_callback_arguments_trimmed (sys : os) (getcwd cmd : str)
        (cwd : option str) (silent : bool) (line_handler : option handler)
        (blocking : bool) (line : str) :
  In line
     (handled (trace (run_cmd sys getcwd cmd cwd silent line_handler
                              blocking))) ->
  lstrip line = line /\ rstrip line = line.
Proof.
  rewrite run_cmd_handled.
  destruct (Shlex.split (escape_backslashes cmd)) as [split_cmd|]; [|intros []].
  destruct blocking; [|intros []].
  rewrite run_blocking_handled.
  destruct (sys _) as [|p]; [intros []|].
  destruct line_handler as [h|]; [|intros []].
  intros H. apply handled_In, feed_events in H as [t [= ->]].
  apply strip_trimmed.
Qed.

Lemma indented_line_handled : In (py "hi") (handled (trace indented_run)).
Proof. cbn. now left. Qed.

Lemma run_cmd_callback_arguments_trimmed_witness :
  lstrip (py "hi") = py "hi" /\ rstrip (py "hi") = py "hi".
Proof.
  exact (run_cmd_callback_arguments_trimmed
           (child indented_output 0) (py "/work") (py "echo '  hi'") None true
           (Some quiet) true (py "hi") indented_line_handled).
Defined.







Lemma escape_backslashes_app (a c : str) :
  escape_backslashes (a ++ c) = escape_backslashes a ++ escape_backslashes c.
Proof. apply flat_map_app. Qed.

(** The lexer inside a word made of plain characters. *)
Lemma lex_plain_word (w : str) :
  forallb plain_char w = true ->
  forall (tail : str) (q : bool) (R : str -> result (list str)),
    (forall es tok, Shlex.lex Shlex.InWord es q tok tail = R tok) ->
    forall es tok,
      Shlex.lex Shlex.InWord es q tok (escape_backslashes w ++ tail)
      = R (rev w ++ tok).
Proof.
  induction w as [|c w IH]; intros Hw tail q R HR es tok; [apply HR|].
  cbn [forallb] in Hw. apply andb_true_iff in Hw as [Hc Hw].
  unfold plain_char in Hc. apply andb_true_iff in Hc as [Hws Hq].
  apply negb_true_iff in Hws, Hq.
  change (escape_backslashes (c :: w))
    with ((if N.eqb c 92 then [92; 92]%N else [c]) ++ escape_backslashes w).
  cbn [rev]. rewrite <- (app_assoc (rev w) [c] tok). cbn [app].
  destruct (N.eqb_spec c 92) as [->|Hc].
  - cbn. apply (IH Hw tail q R HR).
  - cbn. rewrite Hws, Hq.
    assert (He : Shlex.escape c = false)
      by (unfold Shlex.escape; now apply N.eqb_neq).
    rewrite He. apply (IH Hw tail q R HR).
Qed.

(** The lexer at the first character of a plain word. *)
Lemma lex_plain_start (c : N) (w : str) :
  forallb plain_char (c :: w) = true ->
  forall (tail : str) (R : str -> result (list str)),
    (forall es tok, Shlex.lex Shlex.InWord es false tok tail = R tok) ->
    forall es,
      Shlex.lex Shlex.InSpace es false []
                (escape_backslashes (c :: w) ++ tail)
      = R (rev (c :: w)).
Proof.
  intros Hw tail R HR es.
  cbn [forallb] in Hw. apply andb_true_iff in Hw as [Hc Hw].
  unfold plain_char in Hc. apply andb_true_iff in Hc as [Hws Hq].
  apply negb_true_iff in Hws, Hq.
  change (escape_backslashes (c :: w))
    with ((if N.eqb c 92 then [92; 92]%N else [c]) ++ escape_backslashes w).
  cbn [rev].
  destruct (N.eqb_spec c 92) as [->|Hc].
  - cbn. apply (lex_plain_word w Hw tail false R HR).
  - cbn. rewrite Hws, Hq.
    assert (He : Shlex.escape c = false)
      by (unfold Shlex.escape; now apply N.eqb_neq).
    rewrite He. apply (lex_plain_word w Hw tail false R HR).
Qed.

Lemma lex_plain_words (ws : list str) :
  Forall plain_word ws ->
  forall es,
    Shlex.lex Shlex.InSpace es false []
              (escape_backslashes (Logging.join (py " ") ws))
    = Ok ws.
Proof.
  induction ws as [|w ws IH]; intros Hall es; [reflexivity|].
  inversion Hall as [|w' ws' [Hne Hw] Hrest]; subst.
  destruct w as [|c w]; [now elim Hne|].
  destruct ws as [|w2 ws].
  - cbn [Logging.join].
    rewrite <- (app_nil_r (escape_backslashes (c :: w))).
    rewrite (lex_plain_start c w Hw []
               (fun tok => Ok (Shlex.emit false tok []))) by reflexivity.
    cbn [rev]. destruct (rev w ++ [c]) as [|x t] eqn:E.
    + now destruct (rev w).
    + cbn [Shlex.emit]. rewrite <- E, rev_app_distr, rev_involutive.
      reflexivity.
  - change (Logging.join (py " ") ((c :: w) :: w2 :: ws))
      with ((c :: w) ++ 32%N :: Logging.join (py " ") (w2 :: ws)).
    rewrite escape_backslashes_app.
    change (escape_backslashes (32%N :: Logging.join (py " ") (w2 :: ws)))
      with (32%N :: escape_backslashes (Logging.join (py " ") (w2 :: ws))).
    rewrite (lex_plain_start c w Hw _
               (fun tok => match tok with
                           | [] => Ok (w2 :: ws)
                           | _ => Ok (rev tok :: w2 :: ws)
                           end)).
    + cbn [rev]. destruct (rev w ++ [c]) as [|x t] eqn:E.
      * now destruct (rev w).
      * rewrite <- E, rev_app_distr, rev_involutive. reflexivity.
    + intros es' tok. cbn.
      destruct tok as [|x t]; [apply (IH Hrest)|].
      now rewrite (IH Hrest).
Qed.

(** X19. Doubling the backslashes makes them survive the splitting: for
    words that are not empty and contain neither whitespace nor quote
    characters (backslashes allowed), the command made of the words
    separated by single blanks is split by [run_cmd] into exactly these
    words. *)
Theorem escaped_words_survive_split (ws : list str) :
  Forall plain_word ws ->
  Shlex.split (escape_backslashes (Logging.join (py " ") ws)) = Ok ws.
Proof. intros Hall. apply (lex_plain_words ws Hall). Qed.

Lemma windows_words_plain :
  Forall plain_word [py "copy"; py "C:\proj\top.bit"; py "\\server\share"].
Proof. repeat constructor; discriminate. Qed.

Lemma escaped_words_survive_split_witness :
  Shlex.split (escape_backslashes (py "copy C:\proj\top.bit \\server\share"))
  = Ok [py "copy"; py "C:\proj\top.bit"; py "\\server\share"].
Proof.
  exact (escaped_words_survive_split
           [py "copy"; py "C:\proj\top.bit"; py "\\server\share"]
           windows_words_plain).
Defined.

(* ===================================================================== *)
(** ** Properties of the captured-output helper                           *)
(* ===================================================================== *)

(** X20. [check_output] returns only for a command that splits, starts
    and exits with code 0 with well-formed UTF-8 on its standard output;
    what it returns is that output decoded and stripped, so free of
    whitespace at both ends.  A command that exits with another code makes
    it raise a command failure with that code and the split command. *)
Theorem check_output_contract (launch : list str -> option str -> outcome)
        (cmd : str) (cwd : option str) :
  (forall s,
      check_output launch cmd cwd = Ok s ->
      exists split_cmd p text,
        Shlex.split cmd = Ok split_cmd /\
        launch split_cmd cwd = Starts p /\
        returncode p = 0 /\
        decode_utf8 (output p) = Some text /\
        s = strip text /\ lstrip s = s /\ rstrip s = s) /\
  (forall split_cmd p,
      Shlex.split cmd = Ok split_cmd ->
      launch split_cmd cwd = Starts p ->
      returncode p <> 0 ->
      check_output launch cmd cwd
      = Raise (CalledProcessError (returncode p) (CmdArgs split_cmd))).
Proof.
  unfold check_output. split.
  - intros s.
    destruct (Shlex.split cmd) as [split_cmd|]; [|discriminate].
    destruct (launch split_cmd cwd) as [|p] eqn:El; [discriminate|].
    destruct (Z.eqb_spec (returncode p) 0) as [Hrc|]; [|discriminate].
    cbn [negb]. unfold decode.
    destruct (decode_utf8 (output p)) as [text|] eqn:Ed; [|discriminate].
    intros [= <-]. exists split_cmd, p, text.
    repeat (split; [reflexivity || assumption|]).
    apply strip_trimmed.
  - intros split_cmd p -> -> Hrc.
    apply Z.eqb_neq in Hrc. now rewrite Hrc.
Qed.

Lemma check_output_contract_witness :
  check_output (captured [] 128) (py "git rev-parse HEAD") None
  = Raise (CalledProcessError
             128 (CmdArgs [py "git"; py "rev-parse"; py "HEAD"])) /\
  lstrip (py "4f2a9c1") = py "4f2a9c1".
Proof.
  destruct (check_output_contract
              (captured (b "4f2a9c1" ++ [x0a]) 0) (py "git rev-parse HEAD")
              None) as [Hok _].
  destruct (check_output_contract
              (captured [] 128) (py "git rev-parse HEAD") None) as [_ Hfail].
  split.
  - apply (Hfail [py "git"; py "rev-parse"; py "HEAD"]
                 {| output := []; lingering := 0; returncode := 128 |}
                 eq_refl eq_refl).
    discriminate.
  - destruct (Hok (py "4f2a9c1") eq_refl)
      as (sc & p & text & _ & _ & _ & _ & _ & H & _).
    exact H.
Defined.

(* ===================================================================== *)
(** ** Properties of the logging helpers                                  *)
(* ===================================================================== *)

Lemma colored_flushed (has : option Logging.colorama)
      (code : Logging.colorama -> str) (kw : Logging.kwargs)
      (e : Logging.emission) :
  In e (Logging.colored has code kw) -> Logging.flushed_of e = true.
Proof. destruct has; cbn; [intros [<-|[]]; reflexivity | tauto]. Qed.

(** X21. Every write of the five logging helpers is flushed at once,
    with or without the colour library, even when the caller asks for
    [flush=False]. *)
Theorem logging_always_flushes (l : Logging.level)
        (has : option Logging.colorama) (args : list str)
        (kw : Logging.kwargs) (e : Logging.emission) :
  In e (Logging.helper l has args kw) -> Logging.flushed_of e = true.
Proof.
  destruct l; cbn [Logging.helper];
    unfold Logging.err, Logging.critical_warning, Logging.warning,
      Logging.info, Logging.success;
    rewrite !in_app_iff;
    (intros [H|[[<-|[]]|H]];
     [now apply colored_flushed in H | reflexivity
      | now apply colored_flushed in H]).
Qed.

Lemma logging_always_flushes_witness :
  Logging.flushed_of
    (Logging.print [py "done"]
       {| Logging.kw_sep := None; Logging.kw_end := None;
          Logging.kw_file := None; Logging.kw_flush := Some false |})
  = true.
Proof.
  apply (logging_always_flushes
           Logging.Warning None [py "done"]
           {| Logging.kw_sep := None; Logging.kw_end := None;
              Logging.kw_file := None; Logging.kw_flush := Some false |}).
  cbn. now left.
Defined.

(** X22. Without the colour library the five helpers are the same
    function: each writes once, the caller's arguments joined by the
    separator and followed by the end text, to the file the caller names,
    and nothing else. *)
Theorem logging_without_colorama (l : Logging.level) (args : list str)
        (kw : Logging.kwargs) :
  Logging.helper l None args kw
  = [Logging.Emit (Logging.kw_file kw) (Logging.rendered args kw) true].
Proof. destruct l; reflexivity. Qed.

(** X23. With the colour library, what reaches the standard output is
    the opening sequence of the helper, then the caller's text if it was
    not sent to another file, then the closing text: the reset sequences
    for four of the helpers, the colour reset and a newline for [success].
    The colour sequences go to the standard output even when the text goes
    to a file, and the file receives the text alone. *)
Theorem logging_with_colorama (l : Logging.level) (c : Logging.colorama)
        (args : list str) (kw : Logging.kwargs) :
  Logging.console (Logging.helper l (Some c) args kw)
  = Logging.opening l c
      ++ match Logging.kw_file kw with
         | None => Logging.rendered args kw
         | Some _ => []
         end
      ++ Logging.closing l c
  /\
  filter (fun e => match Logging.file_of e with Some _ => true | None => false end)
         (Logging.helper l (Some c) args kw)
  = match Logging.kw_file kw with
    | None => []
    | Some f => [Logging.Emit (Some f) (Logging.rendered args kw) true]
    end.
Proof.
  destruct kw as [sep end_ [f|] fl];
    destruct l; split; cbn; rewrite ?app_nil_r; reflexivity.
Qed.
